(** * Context Switch Guardian: classification, focus state and daily report

    A shallow embedding of [app.py].  The two module-level globals
    ([interruptions] and [user_state]) become fields of an explicit
    [state] that every helper threads through; the clock read by
    [activate_focus_mode] ([datetime.now().isoformat()]) is an extra
    argument; the payloads handed to [send_slack_notification] are
    collected in an outbox.

    Python [str] values are modelled by [string] whose characters are the
    code points below 256 (Latin-1), with [str.lower] and [str.isspace] as
    Python defines them there; Python [int] by [Z]; Python [float]
    (IEEE-754 binary64) by the rational number a double denotes, every
    float operation rounding its exact result to 53 significant bits,
    nearest, ties to even.  The rounding is checked against the Standard
    Library's [SpecFloat] on the operations the program performs. *)

From Stdlib Require Import Bool List String Ascii ZArith QArith Qround Qabs Qpower.
From Stdlib Require Import Lia Lqa SpecFloat.
Import ListNotations.

Local Open Scope string_scope.
Local Open Scope Z_scope.

(* ================================================================== *)
(** * Part I.  Definitions *)
(* ================================================================== *)

(** ** Python strings *)

(** [str.lower] on one code point below 256: the upper-case letters are
    A..Z and the Latin-1 letters U+00C0..U+00DE except the multiplication
    sign U+00D7; each has its lower-case form 32 places further. *)
Definition lower_char (c : ascii) : ascii :=
  let n := N_of_ascii c in
  if ((65 <=? n) && (n <=? 90)
      || (192 <=? n) && (n <=? 222) && negb (n =? 215))%N
  then ascii_of_N (n + 32) else c.

Fixpoint lower (s : string) : string :=
  match s with
  | EmptyString => EmptyString
  | String c s' => String (lower_char c) (lower s')
  end.

(** [str.isspace] on one code point below 256. *)
Definition isspace_char (c : ascii) : bool :=
  let n := N_of_ascii c in
  ((9 <=? n) && (n <=? 13) || (28 <=? n) && (n <=? 32)
   || (n =? 133) || (n =? 160))%N.

Fixpoint all_chars (p : ascii -> bool) (s : string) : bool :=
  match s with
  | EmptyString => true
  | String c s' => p c && all_chars p s'
  end.

(** The transcripts of the edge case "empty or whitespace only": the
    empty string, or a string on which [str.isspace] holds. *)
Definition blank (s : string) : bool := all_chars isspace_char s.

Fixpoint starts_with (needle hay : string) : bool :=
  match needle, hay with
  | EmptyString, _ => true
  | String _ _, EmptyString => false
  | String a needle', String b hay' =>
      Ascii.eqb a b && starts_with needle' hay'
  end.

(** [needle in hay] on Python strings: [needle] occurs at some offset. *)
Fixpoint str_in (needle hay : string) : bool :=
  starts_with needle hay ||
  match hay with
  | EmptyString => false
  | String _ hay' => str_in needle hay'
  end.

(** [any(k in text for k in keywords)] *)
Definition any_in (keywords : list string) (text : string) : bool :=
  existsb (fun k => str_in k text) keywords.

(** ** Classifier *)

Definition triggers : list string :=
  [ "focus mode"; "entering focus mode"; "deep work"; "do not disturb";
    "dnd" ].

Definition detect_focus_mode (transcript : string) : bool :=
  let text := lower transcript in
  any_in triggers text.

(** The [patterns] dict, in insertion order (the order in which
    [patterns.items()] yields its entries). *)
Definition patterns : list (string * list string) :=
  [ ("casual_chat", ["lunch"; "coffee"; "how are you"; "hey"; "what's up"]);
    ("work_request", ["can you"; "quick question"; "need help"; "could you"]);
    ("meeting", ["meeting"; "call"; "zoom"; "schedule"; "calendar"]);
    ("urgent", ["urgent"; "asap"; "emergency"; "now"; "immediately"]) ].

(** The dict [{'type': int_type}] returned on a match. *)
Record detection : Set := mk_detection { det_type : string }.

(** The [for int_type, keywords in items] loop with its early return. *)
Fixpoint first_match (items : list (string * list string)) (text : string)
  : option detection :=
  match items with
  | [] => None
  | (int_type, keywords) :: rest =>
      if any_in keywords text then Some (mk_detection int_type)
      else first_match rest text
  end.

Definition detect_interruption (transcript : string) : option detection :=
  let text := lower transcript in
  first_match patterns text.

(** ** Python numbers *)

(** Nearest integer, ties to the even neighbour. *)
Definition rne (x : Q) : Z :=
  let f := Qfloor x in
  match (x - inject_Z f ?= 1 # 2)%Q with
  | Lt => f
  | Gt => f + 1
  | Eq => if Z.even f then f else f + 1
  end.

(** [floor (log2 x)] of a positive rational. *)
Definition ilog2 (x : Q) : Z :=
  let d := Z.log2 (Qnum x) - Z.log2 (Zpos (Qden x)) in
  if Qle_bool (2 ^ d) x then d else d - 1.

(** Exponent of the unit in the last place of the binade of [x]: a double
    carries 53 significant bits. *)
Definition ulp_exp (x : Q) : Z := ilog2 (Qabs x) - 52.

(** Rounding of an exact result to the nearest double, ties to even.  The
    exponent range of binary64 is left out: the operands of this program
    are list lengths and the constants 1, 3, 10, 23 and 60, so every
    quotient is 0 or lies between 1/3 and 23 * 2^63 / 60, far inside the
    normal range. *)
Definition round53 (x : Q) : Q :=
  if Qeq_bool x 0 then 0%Q
  else Qred (inject_Z (rne (x / 2 ^ ulp_exp x)) * 2 ^ ulp_exp x).

(** A Python number is an [int] or a [float]; a float is held as the
    (reduced) rational it denotes. *)
Inductive pynum : Set :=
| PyInt (z : Z)
| PyFloat (x : Q).

(** The mathematical value of a number. *)
Definition pyval (v : pynum) : Q :=
  match v with
  | PyInt z => inject_Z z
  | PyFloat x => x
  end.

(** [float(v)] *)
Definition to_float (v : pynum) : Q :=
  match v with
  | PyInt z => round53 (inject_Z z)
  | PyFloat x => x
  end.

(** [a / b]: true division.  On two ints CPython returns the double
    nearest to the exact quotient; otherwise both operands are converted
    to float first.  [b] is a non-zero literal at every use. *)
Definition py_truediv (a b : pynum) : pynum :=
  match a, b with
  | PyInt x, PyInt y => PyFloat (round53 (inject_Z x / inject_Z y))
  | _, _ => PyFloat (round53 (to_float a / to_float b))
  end.

(** [a - b] *)
Definition py_sub (a b : pynum) : pynum :=
  match a, b with
  | PyInt x, PyInt y => PyInt (x - y)
  | _, _ => PyFloat (round53 (to_float a - to_float b))
  end.

(** [a < b]: Python compares an int with a float by exact value. *)
Definition py_lt (a b : pynum) : bool := negb (Qle_bool (pyval b) (pyval a)).

(** [min(a, b)] and [max(a, b)] keep the first argument unless the second
    is strictly smaller (resp. larger), and return the object itself, so
    its type is kept. *)
Definition py_min (a b : pynum) : pynum := if py_lt b a then b else a.
Definition py_max (a b : pynum) : pynum := if py_lt a b then b else a.

(** [round(x, 1)] on a float: the exact value of [x] is rounded to one
    decimal, ties to even, and the decimal is converted back to the
    nearest double. *)
Definition float_round1 (x : Q) : Q :=
  round53 (inject_Z (rne (x * 10)) / 10).

(** [round(v, 1)]: an int is returned unchanged. *)
Definition py_round1 (v : pynum) : pynum :=
  match v with
  | PyInt z => PyInt z
  | PyFloat x => PyFloat (float_round1 x)
  end.

(** [a == b] on numbers. *)
Definition py_eq (a b : pynum) : bool := Qeq_bool (pyval a) (pyval b).

(** The double nearest to the decimal [d / 10]: what the literal with one
    decimal place denotes, e.g. [decimal1 61] is [6.1]. *)
Definition decimal1 (d : Z) : Q := round53 (inject_Z d / 10).

(** ** Stored data *)

(** One entry of the [interruptions] list. *)
Record interruption : Set := mk_interruption {
  transcript : string;
  timestamp : string;
  type : string;
  time_lost_minutes : Z
}.

(** The [user_state] dict. *)
Record focus_state : Set := mk_focus_state {
  focus_mode_active : bool;
  focus_start_time : option string
}.

(** ** Python dicts with [str] keys, in insertion order *)

Definition dict (V : Type) : Type := list (string * V).

Fixpoint dict_get {V : Type} (d : dict V) (k : string) (default : V) : V :=
  match d with
  | [] => default
  | (k', v) :: d' => if String.eqb k' k then v else dict_get d' k default
  end.

(** [d[k] = v]: an existing key keeps its place, a new one goes last. *)
Fixpoint dict_set {V : Type} (d : dict V) (k : string) (v : V) : dict V :=
  match d with
  | [] => [(k, v)]
  | (k', v') :: d' =>
      if String.eqb k' k then (k', v) :: d' else (k', v') :: dict_set d' k v
  end.

(** [sum(d.values())] *)
Definition sum_values (d : dict Z) : Z :=
  fold_right (fun kv acc => snd kv + acc) 0 d.

(** ** Report *)

Definition TIP_HIGH : string :=
  "High interruption day! Try blocking focus time tomorrow.".
Definition TIP_GREAT : string := "Great focus day! Keep it up.".
Definition TIP_MODERATE : string :=
  "Moderate interruptions. Use focus mode for deep work.".

Definition get_tip (count : Z) : string :=
  if 15 <? count then TIP_HIGH
  else if count <? 5 then TIP_GREAT
  else TIP_MODERATE.

Record report : Type := mk_report {
  total_interruptions : Z;
  hours_lost : pynum;
  focus_score : pynum;
  interruptions_by_type : dict Z;
  tip : string
}.

(** The counting loop of [generate_daily_report]. *)
Definition count_by_type (interruptions : list interruption) : dict Z :=
  fold_left
    (fun by_type i =>
       let int_type := type i in
       dict_set by_type int_type (dict_get by_type int_type 0 + 1))
    interruptions [].

(** [generate_daily_report], the global list it reads made an argument. *)
Definition generate_daily_report (interruptions : list interruption)
  : report :=
  let total_interruptions := Z.of_nat (List.length interruptions) in
  let hours_lost :=
    py_round1 (py_truediv (PyInt (total_interruptions * 23)) (PyInt 60)) in
  let focus_score :=
    py_round1
      (py_max (PyInt 1)
         (py_min (PyInt 10)
            (py_sub (PyInt 10)
               (py_truediv (PyInt total_interruptions) (PyInt 3))))) in
  let by_type := count_by_type interruptions in
  mk_report total_interruptions hours_lost focus_score by_type
    (get_tip total_interruptions).

(** ** Application state and helpers *)

(** A payload handed to [send_slack_notification].  The sender posts it or
    prints it, catches every failure and returns nothing; it touches
    neither global. *)
Inductive slack_payload : Type :=
| FocusModeActivatedMsg
| DailyFocusReportMsg (r : report).

Record state : Type := mk_state {
  interruptions : list interruption;
  user_state : focus_state;
  slack_outbox : list slack_payload
}.

(** The globals as the module initialises them. *)
Definition initial_state : state :=
  mk_state [] (mk_focus_state false None) [].

Definition send_slack_notification (payload : slack_payload) (st : state)
  : state :=
  mk_state (interruptions st) (user_state st) (slack_outbox st ++ [payload]).

Definition save_interruption (transcript timestamp int_type : string)
  (st : state) : state :=
  mk_state
    (interruptions st ++ [mk_interruption transcript timestamp int_type 23])
    (user_state st) (slack_outbox st).

(** [now] is what [datetime.now().isoformat()] returns during the call. *)
Definition activate_focus_mode (now : string) (st : state) : state :=
  let st1 :=
    mk_state (interruptions st)
      (mk_focus_state true (focus_start_time (user_state st)))
      (slack_outbox st) in
  let st2 :=
    mk_state (interruptions st1)
      (mk_focus_state (focus_mode_active (user_state st1)) (Some now))
      (slack_outbox st1) in
  send_slack_notification FocusModeActivatedMsg st2.

Definition process_conversation (transcript timestamp now : string)
  (st : state) : string * state :=
  if detect_focus_mode transcript then
    ("focus_mode_activated", activate_focus_mode now st)
  else
    match detect_interruption transcript with
    | Some interruption =>
        ("interruption_" ++ det_type interruption,
         save_interruption transcript timestamp (det_type interruption) st)
    | None => ("no_action_needed", st)
    end.

(** The [/report/daily] route: build the report, send it to Slack. *)
Definition daily_report (st : state) : report * state :=
  let report := generate_daily_report (interruptions st) in
  (report, send_slack_notification (DailyFocusReportMsg report) st).

(** ** Requests *)

(** The two state-touching operations, with the transcript and the
    timestamp already extracted from the payload, and the health check. *)
Inductive request : Set :=
| Home
| WebhookOmi (transcript timestamp now : string)
| DailyReport.

Definition handle (r : request) (st : state) : state :=
  match r with
  | Home => st
  | WebhookOmi transcript timestamp now =>
      snd (process_conversation transcript timestamp now st)
  | DailyReport => snd (daily_report st)
  end.

Definition run (rs : list request) (st : state) : state :=
  fold_left (fun st r => handle r st) rs st.

(** Whether a request is classified as a focus-mode activation. *)
Definition is_focus_request (r : request) : bool :=
  match r with
  | WebhookOmi transcript _ _ => detect_focus_mode transcript
  | _ => false
  end.

(** Whether a request records an interruption. *)
Definition is_interruption_request (r : request) : bool :=
  match r with
  | WebhookOmi transcript _ _ =>
      negb (detect_focus_mode transcript)
      && match detect_interruption transcript with
         | Some _ => true
         | None => false
         end
  | _ => false
  end.

(** ** Vocabulary of the specification *)

(** The four interruption types, highest priority first. *)
Definition priority_order : list string :=
  ["casual_chat"; "work_request"; "meeting"; "urgent"].

(** Position of a type in the priority order (4 for anything else). *)
Fixpoint rank_in (order : list string) (c : string) : nat :=
  match order with
  | [] => 0%nat
  | c' :: rest => if String.eqb c' c then 0%nat else S (rank_in rest c)
  end.

Definition rank (c : string) : nat := rank_in priority_order c.

(** Whether the lowercased transcript contains a keyword of category [c]. *)
Definition category_matches (c : string) (transcript : string) : bool :=
  any_in (dict_get patterns c []) (lower transcript).

(** The categories a transcript matches. *)
Definition matching_categories (transcript : string) : list string :=
  filter (fun c => category_matches c transcript) priority_order.

(** A keyword that begins with a visible character. *)
Definition visible_head (k : string) : Prop :=
  match k with
  | EmptyString => False
  | String a _ => isspace_char a = false
  end.

(** The invariant of a stored record. *)
Definition well_formed (i : interruption) : Prop :=
  In (type i) priority_order /\ time_lost_minutes i = 23.

(** Clamping to an interval, on exact values. *)
Definition clamp (lo hi x : Q) : Q :=
  if Qle_bool x lo then lo else if Qle_bool hi x then hi else x.

(** The figures of the report in exact arithmetic. *)
Definition exact_hours (n : Z) : Q := inject_Z (n * 23) / 60.
Definition exact_score (n : Z) : Q := clamp 1 10 (10 - inject_Z n / 3).

(** [d / 10] is a value with one decimal place nearest to [x]. *)
Definition nearest_tenth (d : Z) (x : Q) : Prop :=
  (Qabs (inject_Z d / 10 - x) <= 1 # 20)%Q.

(** The score is the double nearest to the exact clamped value rounded to
    one decimal; the exact value is never half-way between two decimals;
    the score lies between 1 and 10. *)
Definition score_rounds_exact (n : Z) (v : pynum) : Prop :=
  pyval v = decimal1 (rne (exact_score n * 10))
  /\ (Qabs (inject_Z (rne (exact_score n * 10)) / 10 - exact_score n)
      < 1 # 20)%Q
  /\ (1 <= pyval v <= 10)%Q.

(** ** Binary64 as the Standard Library specifies it *)

(** The rational a [spec_float] denotes (0 for what is not finite). *)
Definition SF2Q (f : spec_float) : Q :=
  match f with
  | S754_finite s m e =>
      Qred (inject_Z (if s then Zneg m else Zpos m) * 2 ^ e)
  | _ => 0%Q
  end.

(** The double nearest to an integer. *)
Definition Z2SF (z : Z) : spec_float := binary_normalize 53 1024 z 0 false.

(** Same numerator and same denominator. *)
Definition Q_same (x y : Q) : bool :=
  (Qnum x =? Qnum y) && Pos.eqb (Qden x) (Qden y).

(** ** Sample inputs *)

(** A space, a tab, a newline, a carriage return and a no-break space. *)
Definition blank_sample : string :=
  String " " (String "009" (String "010" (String "013" (String "160" "")))).

(** A transcript with a focus trigger and keywords of all four
    interruption categories. *)
Definition focus_and_interruptions : string :=
  "Hey, can you call me NOW? I am entering Focus Mode".

(** A transcript with keywords of three categories and no focus trigger;
    the urgent keyword comes first and the meeting keyword is longest. *)
Definition several_categories : string :=
  "Now about that meeting: could you join?".

(** A state that differs from the initial one in the focus state and in
    the outbox only. *)
Definition focused_state : state :=
  mk_state [] (mk_focus_state true (Some "2024-01-01T09:00:00"))
    [FocusModeActivatedMsg].

(** A day of requests: two interruptions, a health check, a focus
    activation, a report and a transcript that is neither. *)
Definition sample_day : list request :=
  [ WebhookOmi "Hey, lunch?" "2024-01-01T12:00:00" "2024-01-01T12:00:01";
    Home;
    WebhookOmi "Entering focus mode" "2024-01-01T13:00:00"
      "2024-01-01T13:00:01";
    WebhookOmi "This is URGENT" "2024-01-01T13:30:00" "2024-01-01T13:30:01";
    DailyReport;
    WebhookOmi "The weather is fine" "2024-01-01T14:00:00"
      "2024-01-01T14:00:01" ].

(** A record of the log. *)
Definition sample_record : interruption :=
  mk_interruption "This is URGENT" "2024-01-01T13:30:00" "urgent" 23.

(** Counts 0, 1, ..., 999. *)
Definition sample_counts : list Z := map Z.of_nat (seq 0 1000).

(** ** Rounding as IEEE-754 and Python specify it *)

(** [d] is [x] rounded to the nearest integer, a tie going to the even
    neighbour. *)
Definition rounds_to_int (x : Q) (d : Z) : Prop :=
  (Qabs (inject_Z d - x) <= 1 # 2)%Q
  /\ ((Qabs (inject_Z d - x) == 1 # 2)%Q -> Z.even d = true).

(** [v] is [x >= 0] rounded to the nearest binary64 number, a tie going to
    the even significand (IEEE-754 round-to-nearest-even, exponent range
    left out): [v] is a reduced fraction [m * 2^e] where [2^e] is the unit
    in the last place of the binade of [x] and [m] is [x / 2^e] rounded
    to the nearest integer. *)
Definition rounds_to_double (x v : Q) : Prop :=
  ((x == 0)%Q /\ v = 0%Q)
  \/ ((0 < x)%Q
      /\ v = Qred v
      /\ exists m e,
           (v == inject_Z m * 2 ^ e)%Q
           /\ (2 ^ (e + 52) <= x)%Q /\ (x < 2 ^ (e + 53))%Q
           /\ rounds_to_int (x / 2 ^ e) m).

(** The figure the specification describes: the exact quotient rounded to
    one decimal place. *)
Definition claimed_hours_lost (n : Z) : pynum :=
  PyFloat (decimal1 (rne (exact_hours n * 10))).

From Stdlib Require Import Permutation.

(** ** Further vocabulary: classification *)

(** The triggers without ["entering focus mode"]. *)
Definition short_triggers : list string :=
  ["focus mode"; "deep work"; "do not disturb"; "dnd"].

(** The six answers of [process_conversation]. *)
Definition answers : list string :=
  [ "focus_mode_activated"; "interruption_casual_chat";
    "interruption_work_request"; "interruption_meeting";
    "interruption_urgent"; "no_action_needed" ].

(** Two transcripts that differ in case only. *)
Definition shouted : string := "HEY, Quick Question".
Definition whispered : string := "hey, quick question".

(** A transcript of the work-request category, and text around it that
    brings a casual-chat keyword. *)
Definition plain_request : string := "could you review this".
Definition greeting : string := "Hey! ".

(** ** Further vocabulary: runs of requests *)

(** The record that an interruption request leaves in the log. *)
Definition request_record (r : request) : interruption :=
  match r with
  | WebhookOmi transcript timestamp _ =>
      mk_interruption transcript timestamp
        match detect_interruption transcript with
        | Some d => det_type d
        | None => ""
        end 23
  | _ => mk_interruption "" "" "" 23
  end.

(** The clock reading that comes with a request. *)
Definition request_clock (r : request) : string :=
  match r with
  | WebhookOmi _ _ now => now
  | _ => ""
  end.

(** The clock reading of the last focus-mode activation of a run. *)
Definition last_focus_clock (rs : list request) : option string :=
  option_map request_clock (find is_focus_request (rev rs)).

Definition is_report_request (r : request) : bool :=
  match r with
  | DailyReport => true
  | _ => false
  end.

Definition payload_is_report (p : slack_payload) : bool :=
  match p with
  | DailyFocusReportMsg _ => true
  | FocusModeActivatedMsg => false
  end.

(** The log of [sample_day] when its daily report is requested. *)
Definition sample_day_log : list interruption :=
  [ mk_interruption "Hey, lunch?" "2024-01-01T12:00:00" "casual_chat" 23;
    mk_interruption "This is URGENT" "2024-01-01T13:30:00" "urgent" 23 ].

(** ** The health check *)

(** The body of the response of [home]. *)
Record health : Set := mk_health {
  status : string;
  app : string;
  health_timestamp : string;
  interruptions_today : Z;
  health_focus_mode_active : bool
}.

(** [home]; [now] is what [datetime.now().isoformat()] returns. *)
Definition home (now : string) (st : state) : health :=
  mk_health "running" "Context Switch Guardian" now
    (Z.of_nat (List.length (interruptions st)))
    (focus_mode_active (user_state st)).

(** ** Further vocabulary: the report *)

(** Number of records of type [c]. *)
Definition type_count (c : string) (l : list interruption) : Z :=
  Z.of_nat (count_occ string_dec (map type l) c).

(** The distinct elements of a list in order of first occurrence, those
    of [seen] left out. *)
Fixpoint first_seen (seen l : list string) : list string :=
  match l with
  | [] => []
  | c :: l' =>
      if existsb (String.eqb c) seen then first_seen seen l'
      else c :: first_seen (seen ++ [c]) l'
  end.

(** The figures of the report as functions of the number of records. *)
Definition hours_lost_of (n : Z) : pynum :=
  py_round1 (py_truediv (PyInt (n * 23)) (PyInt 60)).

Definition focus_score_of (n : Z) : pynum :=
  py_round1
    (py_max (PyInt 1)
       (py_min (PyInt 10) (py_sub (PyInt 10) (py_truediv (PyInt n) (PyInt 3))))).

(** Two logs with the same records in another order. *)
Definition chat_then_urgent : list interruption :=
  [ mk_interruption "Hey, lunch?" "2024-01-01T12:00:00" "casual_chat" 23;
    mk_interruption "This is URGENT" "2024-01-01T13:30:00" "urgent" 23 ].

Definition urgent_then_chat : list interruption :=
  [ mk_interruption "This is URGENT" "2024-01-01T13:30:00" "urgent" 23;
    mk_interruption "Hey, lunch?" "2024-01-01T12:00:00" "casual_chat" 23 ].

(** ** The webhook: JSON payloads *)

(** What [request.json] returns: the Python value of a JSON document.  An
    object is held as its items, keys distinct; a number is held as a
    Python number (NaN and the infinities left out: only its truth value
    is ever used). *)
#[warnings="-register-all"]
Inductive json : Type :=
| JNull
| JBool (b : bool)
| JNum (v : pynum)
| JStr (s : string)
| JArr (items : list json)
| JObj (fields : list (string * json)).

(** The result of evaluating Python code that may raise. *)
Inductive pyres (A : Type) : Type :=
| Ok (a : A)
| Raised.

Arguments Ok {A} a.
Arguments Raised {A}.

Definition bind {A B : Type} (r : pyres A) (k : A -> pyres B) : pyres B :=
  match r with
  | Ok a => k a
  | Raised => Raised
  end.

Notation "x <- r ;; k" := (bind r (fun x => k))
  (at level 61, r at next level, right associativity).

(** The truth value of a Python object: [None], [False], zero and empty
    containers are false. *)
Definition truthy (v : json) : bool :=
  match v with
  | JNull => false
  | JBool b => b
  | JNum n => negb (Qeq_bool (pyval n) 0)
  | JStr s => negb (String.eqb s "")
  | JArr items => negb (Nat.eqb (List.length items) 0)
  | JObj fields => negb (Nat.eqb (List.length fields) 0)
  end.

(** [key in v]: a key of a dict, an element of a list, a substring of a
    string; anything else is not iterable and raises [TypeError]. *)
Definition py_in (key : string) (v : json) : pyres bool :=
  match v with
  | JObj fields => Ok (existsb (String.eqb key) (map fst fields))
  | JArr items =>
      Ok (existsb
            (fun x => match x with
                      | JStr s => String.eqb s key
                      | _ => false
                      end) items)
  | JStr s => Ok (str_in key s)
  | _ => Raised
  end.

(** [v.get(key, default)]: only a dict has [get]; anything else raises
    [AttributeError]. *)
Definition py_get (v : json) (key : string) (default : json) : pyres json :=
  match v with
  | JObj fields => Ok (dict_get fields key default)
  | _ => Raised
  end.

(** The elements that [for x in v] goes through: the items of a list,
    the keys of a dict, the characters of a string; anything else raises
    [TypeError]. *)
Definition py_iter (v : json) : pyres (list json) :=
  match v with
  | JArr items => Ok items
  | JObj fields => Ok (map (fun kv => JStr (fst kv)) fields)
  | JStr s => Ok (map (fun c => JStr (String c "")) (list_ascii_of_string s))
  | _ => Raised
  end.

(** A list comprehension [[f(x) for x in items]]: it stops at the first
    element on which [f] raises. *)
Fixpoint map_res {A B : Type} (f : A -> pyres B) (l : list A)
  : pyres (list B) :=
  match l with
  | [] => Ok []
  | a :: l' => b <- f a ;; bs <- map_res f l' ;; Ok (b :: bs)
  end.

(** [sep.join(items)] on strings. *)
Fixpoint join (sep : string) (items : list string) : string :=
  match items with
  | [] => ""
  | [s] => s
  | s :: rest => s ++ sep ++ join sep rest
  end.

(** The strings of a list of values; [None] when one is not a string. *)
Fixpoint all_strings (items : list json) : option (list string) :=
  match items with
  | [] => Some []
  | JStr s :: rest => option_map (cons s) (all_strings rest)
  | _ :: _ => None
  end.

(** [sep.join(items)]: every item must be a string, or [TypeError]. *)
Definition py_join (sep : string) (items : list json) : pyres json :=
  match all_strings items with
  | Some texts => Ok (JStr (join sep texts))
  | None => Raised
  end.

(** The texts of the segments: [[seg.get('text', '') for seg in
    segments]]. *)
Definition segment_texts (segments : json) : pyres (list json) :=
  items <- py_iter segments ;;
  map_res (fun seg => py_get seg "text" (JStr "")) items.

(** The transcript that [webhook_omi] extracts from the payload. *)
Definition extract_transcript (data : json) : pyres json :=
  has_transcript <- py_in "transcript" data ;;
  if has_transcript then py_get data "transcript" (JStr "")
  else
    has_segments <- py_in "transcript_segments" data ;;
    if has_segments then
      segments <- py_get data "transcript_segments" (JArr []) ;;
      texts <- segment_texts segments ;;
      py_join " " texts
    else
      has_structured <- py_in "structured" data ;;
      if has_structured then
        structured <- py_get data "structured" (JObj []) ;;
        py_get structured "overview" (JStr "")
      else Ok (JStr "").

(** The timestamp: [data.get('created_at') or data.get('timestamp') or
    datetime.now().isoformat()]; [now] is the clock reading, taken only
    when both fields are false. *)
Definition extract_timestamp (data : json) (now : string) : pyres json :=
  created_at <- py_get data "created_at" JNull ;;
  if truthy created_at then Ok created_at
  else
    timestamp <- py_get data "timestamp" JNull ;;
    if truthy timestamp then Ok timestamp else Ok (JStr now).

(** The response of the webhook: status 200 with the answer of
    [process_conversation], or status 500 (the error text, which is the
    message of the Python exception, is left out). *)
Inductive webhook_response : Set :=
| Processed (result : string)
| Failed.

(** A record with the timestamp as the payload gave it.  A record of
    [state] holds its timestamp as a string; nothing stops a payload from
    carrying a number, [true] or a list there, and [save_interruption]
    stores what it is given. *)
Record raw_interruption : Type := mk_raw_interruption {
  raw_transcript : string;
  raw_timestamp : json;
  raw_type : string;
  raw_time_lost_minutes : Z
}.

(** What one call of [webhook_omi] does: its response and the globals
    after it.  [RespondedRaw r st i] stands for the globals of [st] with
    the record [i], whose timestamp is not a string, appended to the
    log. *)
Inductive webhook_outcome : Type :=
| Responded (response : webhook_response) (st : state)
| RespondedRaw (response : webhook_response) (st : state)
    (appended : raw_interruption).

(** The call [process_conversation(transcript, timestamp)] of the webhook
    and the response built from its result.  With a string timestamp it
    is [process_conversation]; with any other timestamp the same three
    branches run, the timestamp being used by the interruption branch
    only, which stores it. *)
Definition respond (transcript : string) (timestamp : json) (now : string)
  (st : state) : webhook_outcome :=
  match timestamp with
  | JStr ts =>
      let (result, st') := process_conversation transcript ts now st in
      Responded (Processed result) st'
  | _ =>
      if detect_focus_mode transcript then
        Responded (Processed "focus_mode_activated")
          (activate_focus_mode now st)
      else
        match detect_interruption transcript with
        | Some interruption =>
            RespondedRaw
              (Processed ("interruption_" ++ det_type interruption)) st
              (mk_raw_interruption transcript timestamp
                 (det_type interruption) 23)
        | None => Responded (Processed "no_action_needed") st
        end
  end.

(** [webhook_omi]: [data] is [request.json], [now_ts] the clock reading of
    the timestamp default, [now] that of [activate_focus_mode].  Every
    exception is caught and answered by status 500; [transcript.lower()]
    in [detect_focus_mode] raises on anything but a string, before any
    global is written. *)
Definition webhook_omi (data : json) (now_ts now : string) (st : state)
  : webhook_outcome :=
  match
    (transcript <- extract_transcript data ;;
     timestamp <- extract_timestamp data now_ts ;;
     Ok (transcript, timestamp))
  with
  | Raised => Responded Failed st
  | Ok (JStr transcript, timestamp) => respond transcript timestamp now st
  | Ok (_, _) => Responded Failed st
  end.

(** The timestamp a payload object yields: [created_at] when it is true,
    else [timestamp] when it is true, else the clock reading. *)
Definition payload_timestamp (fields : list (string * json)) (now : string)
  : json :=
  if truthy (dict_get fields "created_at" JNull)
  then dict_get fields "created_at" JNull
  else if truthy (dict_get fields "timestamp" JNull)
       then dict_get fields "timestamp" JNull
       else JStr now.

(** The response of an outcome. *)
Definition outcome_response (o : webhook_outcome) : webhook_response :=
  match o with
  | Responded r _ => r
  | RespondedRaw r _ _ => r
  end.

(** Whether a value is a string, a dict. *)
Definition is_str (v : json) : bool :=
  match v with
  | JStr _ => true
  | _ => false
  end.

Definition is_obj (v : json) : bool :=
  match v with
  | JObj _ => true
  | _ => false
  end.

(** Whether a dict has a key. *)
Definition has_key (fields : list (string * json)) (key : string) : bool :=
  existsb (String.eqb key) (map fst fields).

(** A payload in the segment format, one segment without text. *)
Definition segments_payload : json :=
  JObj [ ("transcript_segments",
          JArr [ JObj [("speaker", JStr "B")];
                 JObj [("text", JStr "Time for Deep Work");
                       ("speaker", JStr "A")];
                 JObj [("text", JStr "see you at lunch")] ]);
         ("created_at", JStr "2024-01-01T09:00:00") ].

(** A payload whose trigger is split over two segments. *)
Definition split_trigger_payload : json :=
  JObj [ ("transcript_segments",
          JArr [ JObj [("text", JStr "time for deep")];
                 JObj [("text", JStr "work")] ]) ].

(** A payload whose [transcript] is [null]. *)
Definition null_transcript_payload : json :=
  JObj [ ("transcript", JNull);
         ("transcript_segments", JArr [JObj [("text", JStr "hey")]]) ].

(** A payload with a plain transcript and ill-typed other fields. *)
Definition plain_payload : json :=
  JObj [ ("transcript_segments", JNum (PyInt 7));
         ("transcript", JStr "Quick question about lunch");
         ("structured", JNull);
         ("created_at", JStr "");
         ("timestamp", JStr "2024-01-01T10:00:00") ].


Definition epoch_interruption_payload : json :=
  JObj [ ("structured", JObj [("overview", JStr "Quick question")]);
         ("created_at", JNum (PyInt 1704099600)) ].

(* ================================================================== *)
(** * Part II.  Properties *)
(* ================================================================== *)

(** ** Substring search *)

(** A needle that occurs in a string made of characters satisfying [p]
    starts with such a character. *)
Lemma str_in_all_chars (p : ascii -> bool) a needle hay :
  all_chars p hay = true -> str_in (String a needle) hay = true -> p a = true.
Proof.
  induction hay as [|b hay IH]; simpl.
  - discriminate.
  - intros Hall Hin. apply andb_prop in Hall. destruct Hall as [Hb Hall].
    apply orb_prop in Hin. destruct Hin as [Hin|Hin].
    + apply andb_prop in Hin. destruct Hin as [Hab _].
      apply Ascii.eqb_eq in Hab. now subst.
    + now apply IH.
Qed.

Lemma isspace_lower_char c :
  isspace_char c = true -> isspace_char (lower_char c) = true.
Proof.
  destruct c as [[] [] [] [] [] [] [] []]; vm_compute; intros H;
    solve [exact H | reflexivity].
Qed.

Lemma blank_lower s : blank s = true -> blank (lower s) = true.
Proof.
  unfold blank. induction s as [|c s IH]; simpl; [reflexivity|].
  intros H. apply andb_prop in H. destruct H as [Hc Hs].
  now rewrite (isspace_lower_char _ Hc), IH.
Qed.

Lemma any_in_blank keywords text :
  Forall visible_head keywords -> blank text = true ->
  any_in keywords text = false.
Proof.
  intros Hk Hb. unfold any_in. induction Hk as [|k ks Hv _ IH].
  - reflexivity.
  - cbn [existsb]. rewrite IH, orb_false_r.
    destruct k as [|a k]; [contradiction|]. cbn in Hv.
    destruct (str_in (String a k) text) eqn:E; [|reflexivity].
    pose proof (str_in_all_chars isspace_char a k text Hb E). congruence.
Qed.

Lemma triggers_visible : Forall visible_head triggers.
Proof. repeat constructor. Qed.

Lemma patterns_visible :
  Forall (fun item => Forall visible_head (snd item)) patterns.
Proof. repeat constructor. Qed.

Lemma first_match_blank items text :
  Forall (fun item => Forall visible_head (snd item)) items ->
  blank text = true -> first_match items text = None.
Proof.
  intros Hi Hb. induction Hi as [|[c ks] rest Hks _ IH]; simpl.
  - reflexivity.
  - now rewrite (any_in_blank ks text Hks Hb).
Qed.

(** ** Classification *)

(** C8.  A transcript that is empty or made of whitespace only is
    classified as no action: no focus trigger is detected, no interruption
    type is detected, and [process_conversation] answers
    ['no_action_needed'] and leaves the state as it was. *)
Theorem blank_transcript_no_action (t ts now : string) (st : state) :
  blank t = true ->
  detect_focus_mode t = false
  /\ detect_interruption t = None
  /\ process_conversation t ts now st = ("no_action_needed", st).
Proof.
  intros Hb. pose proof (blank_lower t Hb) as Hl.
  assert (Hf : detect_focus_mode t = false).
  { unfold detect_focus_mode. now apply any_in_blank; [apply triggers_visible|]. }
  assert (Hi : detect_interruption t = None).
  { unfold detect_interruption.
    now apply first_match_blank; [apply patterns_visible|]. }
  repeat split; trivial.
  unfold process_conversation. now rewrite Hf, Hi.
Qed.

Lemma blank_transcript_no_action_witness :
  blank blank_sample = true
  /\ (detect_focus_mode blank_sample = false
      /\ detect_interruption blank_sample = None
      /\ process_conversation blank_sample "2024-01-01T09:00:00" "now"
           initial_state = ("no_action_needed", initial_state)).
Proof.
  split; [reflexivity|].
  apply (blank_transcript_no_action blank_sample); reflexivity.
Defined.

Lemma empty_transcript_no_action (ts now : string) (st : state) :
  process_conversation "" ts now st = ("no_action_needed", st).
Proof. reflexivity. Qed.

Lemma any_in_intro keywords k text :
  In k keywords -> str_in k text = true -> any_in keywords text = true.
Proof.
  intros Hin Hk. unfold any_in. apply existsb_exists. now exists k.
Qed.

(** C1.  When the lowercased transcript contains one of the five focus
    triggers, the transcript is classified as a focus-mode activation and
    never as an interruption, whatever interruption keywords it carries:
    [process_conversation] answers ['focus_mode_activated'], activates
    focus mode, returns no ['interruption_...'] answer and appends nothing
    to the interruption log. *)
Theorem focus_trigger_short_circuits
  (t ts now : string) (st : state) (trigger : string) :
  In trigger triggers ->
  str_in trigger (lower t) = true ->
  detect_focus_mode t = true
  /\ process_conversation t ts now st
     = ("focus_mode_activated", activate_focus_mode now st)
  /\ (forall c, fst (process_conversation t ts now st) <> "interruption_" ++ c)
  /\ interruptions (snd (process_conversation t ts now st)) = interruptions st.
Proof.
  intros Hin Hk.
  assert (Hf : detect_focus_mode t = true).
  { unfold detect_focus_mode. exact (any_in_intro _ _ _ Hin Hk). }
  unfold process_conversation. rewrite Hf. cbn [fst snd].
  repeat split; trivial. intros c. discriminate.
Qed.

Lemma focus_trigger_short_circuits_witness :
  In "focus mode" triggers
  /\ str_in "focus mode" (lower focus_and_interruptions) = true
  /\ detect_interruption focus_and_interruptions
     = Some (mk_detection "casual_chat")
  /\ (detect_focus_mode focus_and_interruptions = true
      /\ process_conversation focus_and_interruptions "ts" "now" initial_state
         = ("focus_mode_activated", activate_focus_mode "now" initial_state)
      /\ (forall c,
             fst (process_conversation focus_and_interruptions "ts" "now"
                    initial_state) <> "interruption_" ++ c)
      /\ interruptions
           (snd (process_conversation focus_and_interruptions "ts" "now"
                   initial_state)) = interruptions initial_state).
Proof.
  split; [now left|]. split; [reflexivity|]. split; [reflexivity|].
  apply (focus_trigger_short_circuits focus_and_interruptions "ts" "now"
           initial_state "focus mode"); [now left | reflexivity].
Defined.

(** ** Priority among interruption categories *)

Lemma dict_get_head {V : Type} (k : string) (v : V) d default :
  dict_get ((k, v) :: d) k default = v.
Proof. simpl. now rewrite String.eqb_refl. Qed.

Lemma dict_get_tail {V : Type} (k k' : string) (v : V) d default :
  k <> k' -> dict_get ((k, v) :: d) k' default = dict_get d k' default.
Proof.
  intros Hne. simpl. destruct (String.eqb_spec k k'); [contradiction|reflexivity].
Qed.

(** The loop returns the first key, in insertion order, whose keyword
    list matches. *)
Lemma first_match_first_key items text :
  NoDup (map fst items) ->
  first_match items text
  = option_map mk_detection
      (hd_error
         (filter (fun c => any_in (dict_get items c []) text)
            (map fst items))).
Proof.
  induction items as [|[k ks] rest IH]; intros Hnd.
  - reflexivity.
  - cbn [map fst] in Hnd. inversion Hnd as [|? ? Hk Hrest]; subst.
    cbn [first_match map fst filter]. rewrite dict_get_head.
    destruct (any_in ks text); [reflexivity|].
    rewrite (IH Hrest). do 2 f_equal. apply filter_ext_in.
    intros c Hc. rewrite dict_get_tail; [reflexivity|].
    intros ->. contradiction.
Qed.

Lemma detect_interruption_first_category t :
  detect_interruption t
  = option_map mk_detection (hd_error (matching_categories t)).
Proof.
  unfold detect_interruption. rewrite first_match_first_key.
  - reflexivity.
  - repeat constructor; cbn; intuition discriminate.
Qed.

Lemma hd_error_In {A : Type} (l : list A) (a : A) :
  hd_error l = Some a -> In a l.
Proof. destruct l; simpl; [discriminate|]. intros [= ->]. now left. Qed.

(** The head of a filtered list has the least rank among the kept
    elements. *)
Lemma rank_hd_filter (p : string -> bool) (order : list string) c c' :
  hd_error (filter p order) = Some c ->
  In c' (filter p order) ->
  (rank_in order c <= rank_in order c')%nat.
Proof.
  induction order as [|a order IH]; cbn [filter]; [discriminate|].
  destruct (p a) eqn:Ea.
  - cbn [hd_error]. intros [= ->] _. cbn [rank_in].
    rewrite String.eqb_refl. apply Nat.le_0_l.
  - intros Hh Hin. cbn [rank_in].
    assert (Ha : forall x, In x (filter p order) -> String.eqb a x = false).
    { intros x Hx. apply filter_In in Hx. destruct Hx as [_ Hx].
      destruct (String.eqb_spec a x); [congruence|reflexivity]. }
    rewrite (Ha c (hd_error_In _ _ Hh)), (Ha c' Hin).
    apply le_n_S. now apply IH.
Qed.

(** C2.  For a transcript without focus trigger that matches keywords of
    more than one interruption category, the type returned is the first
    matching category in the order casual_chat, work_request, meeting,
    urgent: it matches, no matching category ranks before it, and
    [process_conversation] records it.  The choice depends only on which
    categories match: any other transcript matching the same categories
    gets the same type, wherever its keywords stand and however long they
    are. *)
Theorem highest_priority_category_wins (t ts now : string) (st : state) :
  detect_focus_mode t = false ->
  (2 <= List.length (matching_categories t))%nat ->
  exists c,
    hd_error (matching_categories t) = Some c
    /\ In c (matching_categories t)
    /\ (forall c', In c' (matching_categories t) -> (rank c <= rank c')%nat)
    /\ detect_interruption t = Some (mk_detection c)
    /\ process_conversation t ts now st
       = ("interruption_" ++ c, save_interruption t ts c st)
    /\ (forall t', matching_categories t' = matching_categories t ->
                   detect_interruption t' = Some (mk_detection c)).
Proof.
  intros Hf Hlen.
  destruct (matching_categories t) as [|c cs] eqn:Em; [cbn in Hlen; lia|].
  exists c.
  assert (Hd : detect_interruption t = Some (mk_detection c)).
  { now rewrite detect_interruption_first_category, Em. }
  split; [reflexivity|]. split; [now left|]. split.
  - intros c' Hc'. unfold rank. rewrite <- Em in Hc'.
    unfold matching_categories in *.
    apply (rank_hd_filter (fun c => category_matches c t)); [|exact Hc'].
    now rewrite Em.
  - split; [exact Hd|]. split.
    + unfold process_conversation. now rewrite Hf, Hd.
    + intros t' Ht'. now rewrite detect_interruption_first_category, Ht'.
Qed.

Lemma highest_priority_category_wins_witness :
  detect_focus_mode several_categories = false
  /\ matching_categories several_categories
     = ["work_request"; "meeting"; "urgent"]
  /\ exists c,
       hd_error (matching_categories several_categories) = Some c
       /\ In c (matching_categories several_categories)
       /\ (forall c', In c' (matching_categories several_categories) ->
                      (rank c <= rank c')%nat)
       /\ detect_interruption several_categories = Some (mk_detection c)
       /\ process_conversation several_categories "ts" "now" initial_state
          = ("interruption_" ++ c,
             save_interruption several_categories "ts" c initial_state)
       /\ (forall t',
              matching_categories t' = matching_categories several_categories ->
              detect_interruption t' = Some (mk_detection c)).
Proof.
  split; [reflexivity|]. split; [reflexivity|].
  apply (highest_priority_category_wins several_categories "ts" "now"
           initial_state); [reflexivity | vm_compute; lia].
Defined.

Lemma several_categories_result :
  fst (process_conversation several_categories "ts" "now" initial_state)
  = "interruption_work_request".
Proof. reflexivity. Qed.

(** ** Tip bands *)

(** C4.  The tip is the high-interruption message exactly when the count
    exceeds 15, the positive message exactly when it is below 5, and the
    moderate message otherwise; 5 and 15 are moderate, 4 is positive; the
    report's tip is the tip of its record count. *)
Theorem tip_bands (count : Z) :
  (get_tip count = TIP_HIGH <-> 15 < count)
  /\ (get_tip count = TIP_GREAT <-> count < 5)
  /\ (get_tip count = TIP_MODERATE <-> 5 <= count <= 15)
  /\ get_tip 5 = TIP_MODERATE
  /\ get_tip 15 = TIP_MODERATE
  /\ get_tip 4 = TIP_GREAT
  /\ (forall l : list interruption,
         tip (generate_daily_report l) = get_tip (Z.of_nat (List.length l))).
Proof.
  unfold get_tip.
  destruct (Z.ltb_spec 15 count); [|destruct (Z.ltb_spec count 5)];
    repeat split; intros; try reflexivity; try lia; try discriminate.
Qed.

(** ** Focus state *)

(** C6.  Two activations in a row, from any state, leave focus mode
    active with the start time read by the second call; the operation is
    total, and the interruption log is untouched. *)
Theorem activate_twice_keeps_second_start (now1 now2 : string) (st : state) :
  let st' := activate_focus_mode now2 (activate_focus_mode now1 st) in
  focus_mode_active (user_state st') = true
  /\ focus_start_time (user_state st') = Some now2
  /\ interruptions st' = interruptions st.
Proof. repeat split. Qed.

Lemma handle_keeps_active (r : request) (st : state) :
  focus_mode_active (user_state st) = true ->
  focus_mode_active (user_state (handle r st)) = true.
Proof.
  intros Ha. destruct r as [|t ts now|]; cbn [handle]; trivial.
  unfold process_conversation.
  destruct (detect_focus_mode t); [reflexivity|].
  destruct (detect_interruption t); exact Ha.
Qed.

Lemma handle_focus_request (r : request) (st : state) :
  is_focus_request r = true ->
  focus_mode_active (user_state (handle r st)) = true.
Proof.
  destruct r as [|t ts now|]; cbn [is_focus_request handle]; try discriminate.
  intros Hf. unfold process_conversation. now rewrite Hf.
Qed.

Lemma handle_other_request (r : request) (st : state) :
  is_focus_request r = false -> user_state (handle r st) = user_state st.
Proof.
  destruct r as [|t ts now|]; cbn [is_focus_request handle]; trivial.
  intros Hf. unfold process_conversation. rewrite Hf.
  now destruct (detect_interruption t).
Qed.

Lemma run_snoc (rs : list request) (r : request) (st : state) :
  run (rs ++ [r]) st = handle r (run rs st).
Proof. unfold run. now rewrite fold_left_app. Qed.

(** C7.  The focus state never goes from active to inactive: an active
    state stays active along every sequence of requests; a request changes
    the focus state only when it is classified as a focus-mode activation,
    and then the state is active; so, from the initial inactive state,
    focus mode is active exactly when some request so far was a focus-mode
    activation. *)
Theorem focus_state_only_activates :
  (forall rs st,
      focus_mode_active (user_state st) = true ->
      focus_mode_active (user_state (run rs st)) = true)
  /\ (forall r st,
         user_state (handle r st) <> user_state st ->
         is_focus_request r = true
         /\ focus_mode_active (user_state (handle r st)) = true)
  /\ (forall rs,
         focus_mode_active (user_state (run rs initial_state))
         = existsb is_focus_request rs).
Proof.
  split; [|split].
  - intros rs. induction rs as [|r rs IH]; intros st Ha; [exact Ha|].
    apply IH, handle_keeps_active, Ha.
  - intros r st Hne. destruct (is_focus_request r) eqn:Ef.
    + split; [reflexivity|]. now apply handle_focus_request.
    + now rewrite handle_other_request in Hne.
  - intros rs. induction rs as [|r rs IH] using rev_ind; [reflexivity|].
    rewrite run_snoc, existsb_app. cbn [existsb]. rewrite orb_false_r, <- IH.
    destruct (is_focus_request r) eqn:Ef.
    + rewrite orb_true_r. now apply handle_focus_request.
    + now rewrite orb_false_r, handle_other_request.
Qed.

Lemma focus_state_only_activates_witness :
  focus_mode_active (user_state focused_state) = true
  /\ focus_mode_active (user_state (run sample_day focused_state)) = true
  /\ focus_mode_active (user_state (run sample_day initial_state))
     = existsb is_focus_request sample_day.
Proof.
  destruct focus_state_only_activates as (H1 & _ & H3).
  split; [reflexivity|]. split.
  - apply (H1 sample_day focused_state). reflexivity.
  - apply (H3 sample_day).
Defined.

Lemma sample_day_focus :
  user_state (run sample_day initial_state)
  = mk_focus_state true (Some "2024-01-01T13:00:01")
  /\ existsb is_focus_request sample_day = true.
Proof. split; reflexivity. Qed.

(** ** Frame of one event *)

(** C10.  One call of [process_conversation] answers one of three ways
    and changes at most one of the two globals: on a focus-mode activation
    the interruption log is unchanged, on a recorded interruption the
    focus state is unchanged, and on no action the whole state is
    unchanged. *)
Theorem process_conversation_frame (t ts now : string) (st : state) :
  let res := fst (process_conversation t ts now st) in
  let st' := snd (process_conversation t ts now st) in
  (res = "focus_mode_activated" -> interruptions st' = interruptions st)
  /\ ((exists c, res = "interruption_" ++ c) -> user_state st' = user_state st)
  /\ (res = "no_action_needed" -> st' = st)
  /\ (res = "focus_mode_activated"
      \/ (exists c, res = "interruption_" ++ c)
      \/ res = "no_action_needed")
  /\ (interruptions st' = interruptions st \/ user_state st' = user_state st).
Proof.
  unfold process_conversation.
  destruct (detect_focus_mode t).
  - cbn. repeat split; auto.
    + intros [c Hc]. discriminate.
    + discriminate.
  - destruct (detect_interruption t) as [[c]|]; cbn.
    + repeat split; auto; try discriminate. right. left. now exists c.
    + repeat split; auto.
Qed.

Lemma process_conversation_frame_witness :
  (exists c,
      fst (process_conversation several_categories "ts" "now" focused_state)
      = "interruption_" ++ c)
  /\ user_state
       (snd (process_conversation several_categories "ts" "now" focused_state))
     = user_state focused_state
  /\ interruptions
       (snd (process_conversation several_categories "ts" "now" focused_state))
     <> interruptions focused_state.
Proof.
  pose proof (process_conversation_frame several_categories "ts" "now"
                focused_state) as H.
  cbv zeta in H. destruct H as (_ & H & _).
  assert (He : exists c,
             fst (process_conversation several_categories "ts" "now"
                    focused_state) = "interruption_" ++ c).
  { exists "work_request". reflexivity. }
  split; [exact He|]. split; [exact (H He)|]. discriminate.
Defined.

(** ** Report generation *)

(** C9.  Report generation is deterministic and idempotent: the report
    depends on the interruption log only (not on the focus state nor on
    what was sent before), generating it leaves the log as it was, and a
    second generation on the unchanged log gives the identical report. *)
Theorem report_deterministic_idempotent (st st' : state) :
  interruptions st' = interruptions st ->
  fst (daily_report st') = fst (daily_report st)
  /\ interruptions (snd (daily_report st)) = interruptions st
  /\ user_state (snd (daily_report st)) = user_state st
  /\ fst (daily_report (snd (daily_report st))) = fst (daily_report st)
  /\ fst (daily_report st) = generate_daily_report (interruptions st).
Proof.
  intros He. unfold daily_report. cbn [fst snd send_slack_notification
    interruptions user_state]. now rewrite He.
Qed.

Lemma report_deterministic_idempotent_witness :
  interruptions (run sample_day focused_state)
  = interruptions (run sample_day initial_state)
  /\ run sample_day focused_state <> run sample_day initial_state
  /\ (fst (daily_report (run sample_day focused_state))
      = fst (daily_report (run sample_day initial_state))
      /\ interruptions (snd (daily_report (run sample_day initial_state)))
         = interruptions (run sample_day initial_state)
      /\ user_state (snd (daily_report (run sample_day initial_state)))
         = user_state (run sample_day initial_state)
      /\ fst (daily_report (snd (daily_report (run sample_day initial_state))))
         = fst (daily_report (run sample_day initial_state))
      /\ fst (daily_report (run sample_day initial_state))
         = generate_daily_report
             (interruptions (run sample_day initial_state))).
Proof.
  split; [reflexivity|]. split; [discriminate|].
  apply (report_deterministic_idempotent (run sample_day initial_state)
           (run sample_day focused_state)).
  reflexivity.
Defined.

(** ** The interruption log *)

Lemma sum_values_count (d : dict Z) (k : string) :
  sum_values (dict_set d k (dict_get d k 0 + 1)) = sum_values d + 1.
Proof.
  unfold sum_values.
  induction d as [|[k' v] d IH]; cbn [dict_set dict_get].
  - cbn. lia.
  - destruct (String.eqb k' k); cbn [fold_right snd] in *; lia.
Qed.

Lemma sum_values_fold (l : list interruption) (d : dict Z) :
  sum_values
    (fold_left
       (fun by_type i =>
          dict_set by_type (type i) (dict_get by_type (type i) 0 + 1)) l d)
  = sum_values d + Z.of_nat (List.length l).
Proof.
  revert d. induction l as [|i l IH]; intros d; cbn [fold_left List.length].
  - lia.
  - rewrite IH, sum_values_count. lia.
Qed.

(** The per-type counts of a report add up to its total. *)
Lemma sum_by_type_total (l : list interruption) :
  sum_values (interruptions_by_type (generate_daily_report l))
  = total_interruptions (generate_daily_report l).
Proof.
  cbn [generate_daily_report interruptions_by_type total_interruptions].
  unfold count_by_type. now rewrite sum_values_fold.
Qed.

Lemma detected_type_enumerated (t : string) (d : detection) :
  detect_interruption t = Some d -> In (det_type d) priority_order.
Proof.
  rewrite detect_interruption_first_category.
  destruct (hd_error (matching_categories t)) as [c|] eqn:Eh; [|discriminate].
  intros [= <-]. cbn [det_type].
  apply hd_error_In in Eh. unfold matching_categories in Eh.
  now apply filter_In in Eh.
Qed.

(** What one request does to the log. *)
Lemma handle_log (r : request) (st : state) :
  (exists i, is_interruption_request r = true /\ well_formed i
             /\ interruptions (handle r st) = (interruptions st ++ [i])%list)
  \/ (is_interruption_request r = false
      /\ interruptions (handle r st) = interruptions st).
Proof.
  destruct r as [|t ts now|]; cbn [handle is_interruption_request];
    try (right; split; reflexivity).
  unfold process_conversation.
  destruct (detect_focus_mode t); [right; split; reflexivity|].
  destruct (detect_interruption t) as [d|] eqn:Ed;
    [|right; split; reflexivity].
  left. exists (mk_interruption t ts (det_type d) 23).
  repeat split. now apply (detected_type_enumerated t).
Qed.

Lemma run_log (rs : list request) (st : state) :
  Forall well_formed (interruptions st) ->
  Forall well_formed (interruptions (run rs st))
  /\ List.length (interruptions (run rs st))
     = (List.length (interruptions st)
        + List.length (filter is_interruption_request rs))%nat.
Proof.
  revert st. induction rs as [|r rs IH]; intros st Hwf.
  - cbn. split; [exact Hwf|lia].
  - change (run (r :: rs) st) with (run rs (handle r st)).
    cbn [filter].
    destruct (handle_log r st) as [(i & Hr & Hi & Hl)|(Hr & Hl)];
      rewrite Hr.
    + destruct (IH (handle r st)) as [H1 H2].
      { rewrite Hl. apply Forall_app. split; [exact Hwf|]. now constructor. }
      split; [exact H1|]. rewrite H2, Hl, length_app. cbn. lia.
    + destruct (IH (handle r st)) as [H1 H2]; [now rewrite Hl|].
      split; [exact H1|]. rewrite H2, Hl. lia.
Qed.

(** C5.  After any sequence of requests from the initial state, every
    stored record has one of the four types and [time_lost_minutes] 23,
    the log holds one record per request classified as an interruption,
    and the report generated from it has [total_interruptions] equal to
    the sum of the values of [interruptions_by_type] and to the number of
    records appended. *)
Theorem log_invariant_and_report_total (rs : list request) :
  let st := run rs initial_state in
  let rep := fst (daily_report st) in
  Forall well_formed (interruptions st)
  /\ List.length (interruptions st)
     = List.length (filter is_interruption_request rs)
  /\ total_interruptions rep = sum_values (interruptions_by_type rep)
  /\ total_interruptions rep
     = Z.of_nat (List.length (filter is_interruption_request rs)).
Proof.
  cbv zeta. destruct (run_log rs initial_state) as [Hwf Hlen].
  { constructor. }
  cbn [initial_state interruptions List.length Nat.add] in Hlen.
  split; [exact Hwf|]. split; [exact Hlen|].
  unfold daily_report. cbn [fst]. rewrite sum_by_type_total.
  split; [reflexivity|].
  cbn [generate_daily_report total_interruptions]. now rewrite Hlen.
Qed.

Lemma sample_day_report :
  let rep := fst (daily_report (run sample_day initial_state)) in
  total_interruptions rep = 2
  /\ interruptions_by_type rep = [("casual_chat", 1); ("urgent", 1)]
  /\ map type (interruptions (run sample_day initial_state))
     = ["casual_chat"; "urgent"].
Proof. repeat split. Qed.

(** ** Rounding to the nearest integer and to the nearest double *)

Lemma rne_bounds (x : Q) :
  (inject_Z (rne x) - (1 # 2) <= x <= inject_Z (rne x) + (1 # 2))%Q.
Proof.
  unfold rne. pose proof (Qfloor_le x) as Hl. pose proof (Qlt_floor x) as Hu.
  rewrite inject_Z_plus in Hu. change (inject_Z 1) with 1%Q in Hu.
  destruct (Qcompare_spec (x - inject_Z (Qfloor x)) (1 # 2)) as [He|Hlt|Hgt].
  - destruct (Z.even (Qfloor x)).
    + lra.
    + rewrite inject_Z_plus. change (inject_Z 1) with 1%Q. lra.
  - lra.
  - rewrite inject_Z_plus. change (inject_Z 1) with 1%Q. lra.
Qed.

Lemma rne_floor_le (x : Q) : Qfloor x <= rne x <= Qfloor x + 1.
Proof.
  unfold rne.
  destruct (x - inject_Z (Qfloor x) ?= 1 # 2)%Q; [destruct (Z.even _)| |]; lia.
Qed.

Lemma rne_ge_Z (j : Z) (x : Q) : (inject_Z j <= x)%Q -> j <= rne x.
Proof.
  intros H. apply Qfloor_resp_le in H. rewrite Qfloor_Z in H.
  pose proof (rne_floor_le x). lia.
Qed.

Lemma rne_le_Z (j : Z) (x : Q) : (x <= inject_Z j)%Q -> rne x <= j.
Proof.
  intros H. pose proof (rne_bounds x) as [_ Hb].
  assert (Hlt : (inject_Z (rne x) < inject_Z (j + 1))%Q).
  { rewrite inject_Z_plus. change (inject_Z 1) with 1%Q.
    pose proof (rne_floor_le x) as [_ Hr].
    unfold rne in *.
    pose proof (Qfloor_le x) as Hl.
    destruct (Qcompare_spec (x - inject_Z (Qfloor x)) (1 # 2)) as [He|Hl'|Hg].
    - destruct (Z.even (Qfloor x)); [lra|].
      rewrite inject_Z_plus. change (inject_Z 1) with 1%Q. lra.
    - lra.
    - rewrite inject_Z_plus. change (inject_Z 1) with 1%Q. lra. }
  rewrite <- Zlt_Qlt in Hlt. lia.
Qed.

Lemma pow2_pos (e : Z) : (0 < 2 ^ e)%Q.
Proof. now apply Qpower_0_lt. Qed.

Lemma pow2_inject (e : Z) : 0 <= e -> (inject_Z (2 ^ e) == 2 ^ e)%Q.
Proof. intros He. now rewrite Zpower_Qpower. Qed.

Lemma Qdiv_le_cross (a b c d : Q) :
  (0 < b -> 0 < d -> a * d <= c * b -> a / b <= c / d)%Q.
Proof.
  intros Hb Hd H. apply Qle_shift_div_r; [exact Hb|].
  setoid_replace (c / d * b)%Q with (c * b / d)%Q by (field; lra).
  apply Qle_shift_div_l; [exact Hd|exact H].
Qed.

Lemma ilog2_lower (x : Q) : (0 < x -> 2 ^ ilog2 x <= x)%Q.
Proof.
  intros Hx. unfold ilog2.
  destruct (Qle_bool _ x) eqn:E; [now apply Qle_bool_iff|].
  destruct x as [p q]. cbn [Qnum Qden].
  assert (Hp : 0 < p) by (unfold Qlt in Hx; cbn in Hx; lia).
  pose proof (Z.log2_spec p Hp) as [Hp1 _].
  pose proof (Z.log2_spec (Zpos q) (Pos2Z.is_pos q)) as [_ Hq2].
  pose proof (Z.log2_nonneg p) as Hlp.
  pose proof (Z.log2_nonneg (Zpos q)) as Hlq.
  replace (Z.log2 p - Z.log2 (Zpos q) - 1)
    with (Z.log2 p - Z.succ (Z.log2 (Zpos q))) by lia.
  rewrite Qpower_minus by discriminate.
  rewrite <- !pow2_inject by lia.
  rewrite (Qmake_Qdiv p q).
  apply Qdiv_le_cross.
  - rewrite pow2_inject by lia. apply pow2_pos.
  - change 0%Q with (inject_Z 0). rewrite <- Zlt_Qlt. lia.
  - rewrite <- !inject_Z_mult, <- Zle_Qle. nia.
Qed.

Lemma Qabs_of_pos (x : Q) : (0 < x)%Q -> Qabs x = x.
Proof.
  destruct x as [p q]. unfold Qlt. cbn. intros H.
  now rewrite Z.abs_eq by lia.
Qed.

Lemma round53_zero (x : Q) : (x == 0)%Q -> round53 x = 0%Q.
Proof.
  intros H. unfold round53. apply Qeq_bool_iff in H. now rewrite H.
Qed.

Lemma round53_nonzero (x : Q) :
  ~ (x == 0)%Q ->
  (round53 x == inject_Z (rne (x / 2 ^ ulp_exp x)) * 2 ^ ulp_exp x)%Q.
Proof.
  intros H. unfold round53.
  destruct (Qeq_bool x 0) eqn:E; [apply Qeq_bool_iff in E; contradiction|].
  apply Qred_correct.
Qed.

(** Rounding does not cross a point of the grid of its own binade. *)
Lemma round53_ge_grid (x : Q) (j : Z) :
  ~ (x == 0)%Q ->
  (inject_Z j * 2 ^ ulp_exp x <= x ->
   inject_Z j * 2 ^ ulp_exp x <= round53 x)%Q.
Proof.
  intros Hx H. rewrite (round53_nonzero x Hx).
  pose proof (pow2_pos (ulp_exp x)) as He.
  apply Qmult_le_compat_r; [|lra].
  rewrite <- Zle_Qle. apply rne_ge_Z.
  apply Qle_shift_div_l; assumption.
Qed.

Lemma round53_le_grid (x : Q) (j : Z) :
  ~ (x == 0)%Q ->
  (x <= inject_Z j * 2 ^ ulp_exp x ->
   round53 x <= inject_Z j * 2 ^ ulp_exp x)%Q.
Proof.
  intros Hx H. rewrite (round53_nonzero x Hx).
  pose proof (pow2_pos (ulp_exp x)) as He.
  apply Qmult_le_compat_r; [|lra].
  rewrite <- Zle_Qle. apply rne_le_Z.
  apply Qle_shift_div_r; assumption.
Qed.

(** Rounding moves a value by half a unit in the last place at most. *)
Lemma round53_error (x : Q) :
  ~ (x == 0)%Q ->
  (Qabs (round53 x - x) <= 2 ^ ulp_exp x * (1 # 2))%Q.
Proof.
  intros Hx. rewrite (round53_nonzero x Hx).
  pose proof (pow2_pos (ulp_exp x)) as He.
  pose proof (rne_bounds (x / 2 ^ ulp_exp x)) as [Hl Hu].
  set (m := inject_Z (rne (x / 2 ^ ulp_exp x))) in *.
  set (E := (2 ^ ulp_exp x)%Q) in *.
  assert (Hxe : (x == x / E * E)%Q) by (field; lra).
  apply Qabs_Qle_condition.
  assert (H1 : ((m - (1 # 2)) * E <= x / E * E)%Q)
    by (apply Qmult_le_compat_r; lra).
  assert (H2 : (x / E * E <= (m + (1 # 2)) * E)%Q)
    by (apply Qmult_le_compat_r; lra).
  rewrite <- Hxe in H1, H2. split; lra.
Qed.

Lemma ilog2_below (x : Q) (k : Z) : (0 < x)%Q -> (x < 2 ^ k)%Q -> ilog2 x < k.
Proof.
  intros Hx Hk. apply (Qpower_lt_compat_l_inv 2); [|reflexivity].
  apply Qle_lt_trans with x; [now apply ilog2_lower|exact Hk].
Qed.

Lemma ulp_exp_below (x : Q) (k : Z) :
  (0 < x)%Q -> (x < 2 ^ k)%Q -> ulp_exp x <= k - 53.
Proof.
  intros Hx Hk. unfold ulp_exp. rewrite (Qabs_of_pos x Hx).
  pose proof (ilog2_below x k Hx Hk). lia.
Qed.

Lemma ulp_exp_lower (x : Q) : (0 < x)%Q -> (2 ^ (ulp_exp x + 52) <= x)%Q.
Proof.
  intros Hx. unfold ulp_exp. rewrite (Qabs_of_pos x Hx).
  replace (ilog2 x - 52 + 52) with (ilog2 x) by lia. now apply ilog2_lower.
Qed.

Lemma Qdiv_lt_cross (a b c d : Q) :
  (0 < b -> 0 < d -> a * d < c * b -> a / b < c / d)%Q.
Proof.
  intros Hb Hd H. apply Qlt_shift_div_r; [exact Hb|].
  setoid_replace (c / d * b)%Q with (c * b / d)%Q by (field; lra).
  apply Qlt_shift_div_l; [exact Hd|exact H].
Qed.

Lemma ilog2_upper (x : Q) : (0 < x -> x < 2 ^ (ilog2 x + 1))%Q.
Proof.
  intros Hx. unfold ilog2.
  destruct (Qle_bool _ x) eqn:E.
  - destruct x as [p q]. cbn [Qnum Qden].
    assert (Hp : 0 < p) by (unfold Qlt in Hx; cbn in Hx; lia).
    pose proof (Z.log2_spec p Hp) as [_ Hp2].
    pose proof (Z.log2_spec (Zpos q) (Pos2Z.is_pos q)) as [Hq1 _].
    pose proof (Z.log2_nonneg p) as Hlp.
    pose proof (Z.log2_nonneg (Zpos q)) as Hlq.
    replace (Z.log2 p - Z.log2 (Zpos q) + 1)
      with (Z.succ (Z.log2 p) - Z.log2 (Zpos q)) by lia.
    rewrite Qpower_minus by discriminate.
    rewrite <- !pow2_inject by lia.
    rewrite (Qmake_Qdiv p q).
    apply Qdiv_lt_cross.
    + change 0%Q with (inject_Z 0). rewrite <- Zlt_Qlt. lia.
    + rewrite pow2_inject by lia. apply pow2_pos.
    + rewrite <- !inject_Z_mult, <- Zlt_Qlt. nia.
  - replace (Z.log2 (Qnum x) - Z.log2 (Zpos (Qden x)) - 1 + 1)
      with (Z.log2 (Qnum x) - Z.log2 (Zpos (Qden x))) by lia.
    apply Qnot_le_lt. intros H. apply Qle_bool_iff in H. congruence.
Qed.

(** The rounded value of a positive number is an integer of 53 bits (or
    the next power of two) times the unit in the last place of its
    binade: [round53] keeps 53 significant bits. *)
Lemma round53_significand (x : Q) :
  (0 < x)%Q ->
  2 ^ 52 <= rne (x / 2 ^ ulp_exp x) <= 2 ^ 53.
Proof.
  intros Hx. pose proof (pow2_pos (ulp_exp x)) as He.
  pose proof (ulp_exp_lower x Hx) as Hl.
  assert (Hu : (x < 2 ^ (ulp_exp x + 53))%Q).
  { unfold ulp_exp. rewrite (Qabs_of_pos x Hx).
    replace (ilog2 x - 52 + 53) with (ilog2 x + 1) by lia.
    now apply ilog2_upper. }
  rewrite Qpower_plus, Qmult_comm in Hl, Hu by discriminate.
  split.
  - apply rne_ge_Z. apply Qle_shift_div_l; [exact He|exact Hl].
  - apply rne_le_Z. apply Qle_shift_div_r; [exact He|].
    apply Qlt_le_weak. exact Hu.
Qed.

(** An integer lies on every grid of non-positive exponent. *)
Lemma grid_point (c e : Z) :
  e <= 0 -> (inject_Z c == inject_Z (c * 2 ^ (- e)) * 2 ^ e)%Q.
Proof.
  intros He. rewrite inject_Z_mult, pow2_inject by lia.
  rewrite <- Qmult_assoc, <- Qpower_plus by discriminate.
  replace (- e + e) with 0 by lia. cbn [Qpower]. ring.
Qed.

Lemma round53_error_below (x : Q) (k : Z) :
  (0 <= x)%Q -> (x < 2 ^ k)%Q ->
  (Qabs (round53 x - x) <= 2 ^ (k - 53) * (1 # 2))%Q.
Proof.
  intros Hx Hk. pose proof (pow2_pos (k - 53)) as Hp.
  destruct (Qeq_dec x 0) as [H0|H0].
  - rewrite (round53_zero x H0). apply Qabs_Qle_condition. split; lra.
  - assert (Hpos : (0 < x)%Q) by (apply Qle_lteq in Hx; destruct Hx as [?|He];
      [assumption|symmetry in He; contradiction]).
    apply Qle_trans with (2 ^ ulp_exp x * (1 # 2))%Q.
    + now apply round53_error.
    + apply Qmult_le_compat_r; [|discriminate].
      apply Qpower_le_compat_l; [|discriminate].
      now apply ulp_exp_below.
Qed.

(** Rounding does not cross an integer that a double holds exactly. *)
Lemma round53_ge_int (c : Z) (x : Q) :
  0 < c < 2 ^ 53 -> (inject_Z c <= x)%Q -> (inject_Z c <= round53 x)%Q.
Proof.
  intros Hc Hx.
  assert (Hc0 : (0 < inject_Z c)%Q)
    by (change 0%Q with (inject_Z 0); rewrite <- Zlt_Qlt; lia).
  assert (Hpos : (0 < x)%Q) by lra.
  assert (Hnz : ~ (x == 0)%Q) by lra.
  destruct (Z_le_gt_dec (ulp_exp x) 0) as [He|He].
  - rewrite (grid_point c _ He) in Hx |- *. now apply round53_ge_grid.
  - pose proof (ulp_exp_lower x Hpos) as Hl.
    rewrite Qpower_plus, Qmult_comm in Hl by discriminate.
    change (2 ^ 52)%Q with (inject_Z (2 ^ 52)) in Hl.
    apply (round53_ge_grid x _ Hnz) in Hl.
    apply Qle_trans with (inject_Z (2 ^ 52) * 2 ^ ulp_exp x)%Q; [|exact Hl].
    assert (H1 : (2 ^ 1 <= 2 ^ ulp_exp x)%Q)
      by (apply Qpower_le_compat_l; [lia|discriminate]).
    change (2 ^ 1)%Q with 2%Q in H1.
    assert (H2 : (inject_Z c <= inject_Z (2 ^ 53))%Q)
      by (rewrite <- Zle_Qle; lia).
    change (inject_Z (2 ^ 53)) with (inject_Z (2 ^ 52) * 2)%Q in H2.
    apply Qle_trans with (inject_Z (2 ^ 52) * 2)%Q; [exact H2|].
    apply Qmult_le_l; [reflexivity|exact H1].
Qed.

Lemma round53_le_int (c : Z) (x : Q) :
  0 < c < 2 ^ 53 -> (x <= inject_Z c)%Q -> (round53 x <= inject_Z c)%Q.
Proof.
  intros Hc Hx.
  assert (Hc0 : (0 < inject_Z c)%Q)
    by (change 0%Q with (inject_Z 0); rewrite <- Zlt_Qlt; lia).
  destruct (Qeq_dec x 0) as [H0|H0]; [rewrite (round53_zero x H0); lra|].
  destruct (Qlt_le_dec x 0) as [Hneg|Hnn].
  - apply Qle_trans with (inject_Z 0 * 2 ^ ulp_exp x)%Q.
    + apply round53_le_grid; [exact H0|]. change (inject_Z 0) with 0%Q. lra.
    + change (inject_Z 0) with 0%Q. lra.
  - assert (Hpos : (0 < x)%Q) by (apply Qle_lteq in Hnn; destruct Hnn as [?|E];
      [assumption|symmetry in E; contradiction]).
    assert (He : ulp_exp x <= 0).
    { assert (Hk : (x < 2 ^ 53)%Q).
      { apply Qle_lt_trans with (inject_Z c); [exact Hx|].
        change (2 ^ 53)%Q with (inject_Z (2 ^ 53)). rewrite <- Zlt_Qlt. lia. }
      pose proof (ulp_exp_below x 53 Hpos Hk). lia. }
    rewrite (grid_point c _ He) in Hx |- *. now apply round53_le_grid.
Qed.

Lemma Qle_bool_false (a b : Q) : (b < a)%Q -> Qle_bool a b = false.
Proof.
  intros H. destruct (Qle_bool a b) eqn:E; [|reflexivity].
  apply Qle_bool_iff in E. lra.
Qed.

Lemma Qle_bool_true (a b : Q) : (a <= b)%Q -> Qle_bool a b = true.
Proof. apply Qle_bool_iff. Qed.

(** The focus-score expression of [generate_daily_report]. *)
Lemma focus_score_expr (l : list interruption) :
  focus_score (generate_daily_report l)
  = py_round1
      (py_max (PyInt 1)
         (py_min (PyInt 10)
            (py_sub (PyInt 10)
               (py_truediv (PyInt (Z.of_nat (List.length l))) (PyInt 3))))).
Proof. reflexivity. Qed.

(** From 27 records on, the score is the int 1 that [max] returns. *)
Lemma focus_score_floor (n : Z) :
  27 <= n ->
  py_round1
    (py_max (PyInt 1)
       (py_min (PyInt 10)
          (py_sub (PyInt 10) (py_truediv (PyInt n) (PyInt 3)))))
  = PyInt 1.
Proof.
  intros Hn. cbn [py_truediv py_sub to_float].
  set (y := round53 (inject_Z n / inject_Z 3)).
  assert (Hy : (inject_Z 9 <= y)%Q).
  { apply round53_ge_int; [lia|].
    apply Qle_shift_div_l; [reflexivity|].
    rewrite <- inject_Z_mult, <- Zle_Qle. lia. }
  change (round53 (inject_Z 10)) with 10%Q.
  set (z := round53 (10 - y)).
  assert (Hz : (z <= inject_Z 1)%Q).
  { apply round53_le_int; [lia|]. change (inject_Z 1) with 1%Q.
    change (inject_Z 9) with 9%Q in Hy. lra. }
  change (inject_Z 1) with 1%Q in Hz.
  unfold py_min, py_max, py_lt. cbn [pyval].
  rewrite (Qle_bool_false (inject_Z 10) z)
    by (change (inject_Z 10) with 10%Q; lra).
  cbn [negb pyval].
  now rewrite (Qle_bool_true z (inject_Z 1)) by exact Hz.
Qed.

Lemma exact_score_floor (n : Z) : 27 <= n -> exact_score n = 1%Q.
Proof.
  intros Hn. unfold exact_score, clamp.
  rewrite Qle_bool_true; [reflexivity|].
  assert (H : (inject_Z 27 <= inject_Z n)%Q) by (rewrite <- Zle_Qle; lia).
  change (inject_Z 27) with 27%Q in H.
  setoid_replace (inject_Z n / 3)%Q with (inject_Z n * (1 # 3))%Q
    by (field). lra.
Qed.

Lemma focus_score_small (n : Z) :
  0 <= n < 27 ->
  score_rounds_exact n
    (py_round1
       (py_max (PyInt 1)
          (py_min (PyInt 10)
             (py_sub (PyInt 10) (py_truediv (PyInt n) (PyInt 3)))))).
Proof.
  intros Hn. rewrite <- (Z2Nat.id n) by lia.
  assert (Hk : (Z.to_nat n < 27)%nat) by lia.
  revert Hk. generalize (Z.to_nat n) as k. intros k Hk.
  do 27 (destruct k as [|k];
    [vm_compute; repeat split; solve [reflexivity|discriminate]|]).
  lia.
Qed.

Lemma focus_score_rounds_exact (l : list interruption) :
  score_rounds_exact (Z.of_nat (List.length l))
    (focus_score (generate_daily_report l)).
Proof.
  rewrite focus_score_expr.
  destruct (Z_lt_le_dec (Z.of_nat (List.length l)) 27) as [Hs|Hb].
  - apply focus_score_small. lia.
  - rewrite (focus_score_floor _ Hb). unfold score_rounds_exact.
    rewrite (exact_score_floor _ Hb). vm_compute.
    repeat split; solve [reflexivity|discriminate].
Qed.

(** Below 2^49 records the quotient is so close to its double that
    [round] picks a decimal nearest to the exact quotient. *)
Lemma hours_lost_nearest (n : Z) :
  0 <= n < 2 ^ 49 ->
  nearest_tenth (rne (round53 (inject_Z (n * 23) / inject_Z 60) * 10))
    (exact_hours n).
Proof.
  intros Hn. unfold nearest_tenth, exact_hours.
  change (inject_Z 60) with 60%Q.
  set (q := (inject_Z (n * 23) / 60)%Q).
  assert (Hq : (q * 60 == inject_Z (n * 23))%Q) by (unfold q; field).
  assert (Hq0 : (0 <= q)%Q).
  { apply Qle_shift_div_l; [reflexivity|].
    change (0 * 60)%Q with (inject_Z 0). rewrite <- Zle_Qle. lia. }
  assert (Hq1 : (q < 2 ^ 48)%Q).
  { apply Qlt_shift_div_r; [reflexivity|].
    change (2 ^ 48 * 60)%Q with (inject_Z (2 ^ 48 * 60)).
    rewrite <- Zlt_Qlt. lia. }
  pose proof (round53_error_below q 48 Hq0 Hq1) as He.
  change (2 ^ (48 - 53) * (1 # 2))%Q with (1 # 64)%Q in He.
  apply Qabs_Qle_condition in He. destruct He as [He1 He2].
  set (x := round53 q) in *.
  pose proof (rne_bounds (x * 10)) as [Hd1 Hd2].
  set (d := rne (x * 10)) in *.
  assert (Hz : -3 <= 6 * d - n * 23 <= 3).
  { assert (H1 : (inject_Z (-4) < inject_Z (6 * d - n * 23))%Q).
    { unfold Z.sub at 1. rewrite inject_Z_plus, inject_Z_opp, inject_Z_mult.
      change (inject_Z (-4)) with (-4)%Q. change (inject_Z 6) with 6%Q. lra. }
    assert (H2 : (inject_Z (6 * d - n * 23) < inject_Z 4)%Q).
    { unfold Z.sub at 1. rewrite inject_Z_plus, inject_Z_opp, inject_Z_mult.
      change (inject_Z 4) with 4%Q. change (inject_Z 6) with 6%Q. lra. }
    rewrite <- Zlt_Qlt in H1, H2. lia. }
  destruct Hz as [Hz1 Hz2].
  rewrite Zle_Qle in Hz1, Hz2.
  unfold Z.sub in Hz1, Hz2 at 1.
  rewrite inject_Z_plus, inject_Z_opp, inject_Z_mult in Hz1, Hz2.
  change (inject_Z (-3)) with (-3)%Q in Hz1. change (inject_Z 3) with 3%Q in Hz2.
  change (inject_Z 6) with 6%Q in Hz1, Hz2.
  setoid_replace (inject_Z d / 10)%Q with (inject_Z d * (1 # 10))%Q by field.
  apply Qabs_Qle_condition. split; lra.
Qed.

(** ** Agreement with the Standard Library's binary64 *)

(** On the first thousand counts, the quotients and the difference that
    [generate_daily_report] computes are the doubles that the Standard
    Library's IEEE-754 division and subtraction return. *)
Lemma round53_agrees_with_SFdiv :
  forallb
    (fun n =>
       Q_same (SF2Q (SFdiv 53 1024 (Z2SF (n * 23)) (Z2SF 60)))
         (round53 (inject_Z (n * 23) / inject_Z 60))
       && Q_same (SF2Q (SFdiv 53 1024 (Z2SF n) (Z2SF 3)))
            (round53 (inject_Z n / inject_Z 3))
       && Q_same
            (SF2Q (SFsub 53 1024 (Z2SF 10) (SFdiv 53 1024 (Z2SF n) (Z2SF 3))))
            (round53 (10 - round53 (inject_Z n / inject_Z 3))))
    sample_counts = true.
Proof. vm_compute. reflexivity. Qed.

(** The decimal literals with one place are the doubles that the Standard
    Library's division returns for tenths. *)
Lemma decimal1_agrees_with_SFdiv :
  forallb
    (fun d => Q_same (SF2Q (SFdiv 53 1024 (Z2SF d) (Z2SF 10))) (decimal1 d))
    sample_counts = true.
Proof. vm_compute. reflexivity. Qed.

(** ** Figures of the report *)

Lemma hours_lost_expr (l : list interruption) :
  hours_lost (generate_daily_report l)
  = PyFloat
      (decimal1
         (rne (round53 (inject_Z (Z.of_nat (List.length l) * 23) / inject_Z 60)
               * 10))).
Proof. reflexivity. Qed.

(** The figures of the report on sample logs: 16 records lose 6.1 hours
    and score 4.7; the score of an empty log is the int 10 and that of a
    log of 27 records or more is the int 1. *)
Lemma report_figures_samples :
  hours_lost (generate_daily_report (repeat sample_record 16))
  = PyFloat (decimal1 61)
  /\ focus_score (generate_daily_report (repeat sample_record 16))
     = PyFloat (decimal1 47)
  /\ interruptions_by_type (generate_daily_report (repeat sample_record 16))
     = [("urgent", 16)]
  /\ tip (generate_daily_report (repeat sample_record 16)) = TIP_HIGH
  /\ focus_score (generate_daily_report []) = PyInt 10
  /\ focus_score (generate_daily_report (repeat sample_record 27)) = PyInt 1.
Proof. vm_compute. repeat split. Qed.

(** Where the exact quotient is half-way between two decimals, the double
    of the quotient decides: 3 records (exactly 1.15 hours) give 1.1,
    9 records (3.45) give 3.5, 15 records (5.75, a double) give 5.8. *)
Lemma hours_lost_ties :
  hours_lost (generate_daily_report (repeat sample_record 3))
  = PyFloat (decimal1 11)
  /\ hours_lost (generate_daily_report (repeat sample_record 9))
     = PyFloat (decimal1 35)
  /\ hours_lost (generate_daily_report (repeat sample_record 15))
     = PyFloat (decimal1 58).
Proof. vm_compute. repeat split. Qed.

(* ================================================================== *)
(** * Part III.  Further properties of the code *)
(* ================================================================== *)

(** ** Substring search under concatenation and case folding *)

Lemma lower_app (a b : string) : lower (a ++ b) = lower a ++ lower b.
Proof. induction a as [|c a IH]; cbn; [reflexivity|now rewrite IH]. Qed.

Lemma lower_char_idem (c : ascii) : lower_char (lower_char c) = lower_char c.
Proof. destruct c as [[] [] [] [] [] [] [] []]; reflexivity. Qed.

Lemma lower_idem (s : string) : lower (lower s) = lower s.
Proof.
  induction s as [|c s IH]; cbn; [reflexivity|].
  now rewrite lower_char_idem, IH.
Qed.

Lemma starts_with_app_r (k t b : string) :
  starts_with k t = true -> starts_with k (t ++ b) = true.
Proof.
  revert t. induction k as [|a k IH]; intros t; [reflexivity|].
  destruct t as [|c t]; cbn; [discriminate|].
  intros H. apply andb_prop in H. destruct H as [H1 H2].
  now rewrite H1, (IH t H2).
Qed.

Lemma str_in_app_r (k t b : string) :
  str_in k t = true -> str_in k (t ++ b) = true.
Proof.
  induction t as [|c t IH]; cbn [str_in].
  - rewrite orb_false_r. destruct k; [|discriminate].
    intros _. destruct b; reflexivity.
  - intros H. apply orb_prop in H. destruct H as [H|H].
    + change (String c t ++ b) with (String c (t ++ b)).
      cbn [str_in]. apply (starts_with_app_r _ _ b) in H.
      change (String c t ++ b) with (String c (t ++ b)) in H.
      now rewrite H.
    + change (String c t ++ b) with (String c (t ++ b)).
      cbn [str_in]. rewrite (IH H). apply orb_true_r.
Qed.

Lemma str_in_app_l (k a t : string) :
  str_in k t = true -> str_in k (a ++ t) = true.
Proof.
  intros H. induction a as [|c a IH]; [exact H|].
  change (String c a ++ t) with (String c (a ++ t)).
  cbn [str_in]. rewrite IH. apply orb_true_r.
Qed.

Lemma str_in_embed (k a t b : string) :
  str_in k t = true -> str_in k (a ++ t ++ b) = true.
Proof. intros H. now apply str_in_app_l, str_in_app_r. Qed.

Lemma any_in_embed (ks : list string) (a t b : string) :
  any_in ks t = true -> any_in ks (a ++ t ++ b) = true.
Proof.
  unfold any_in. intros H. apply existsb_exists in H.
  destruct H as (k & Hk & Hin). apply existsb_exists. exists k.
  split; [exact Hk|now apply str_in_embed].
Qed.

Lemma lower_embed (a t b : string) :
  lower (a ++ t ++ b) = lower a ++ lower t ++ lower b.
Proof. now rewrite !lower_app. Qed.

(** ** Classification under embedding and case *)

(** X1.  A focus trigger survives any surrounding text: when a transcript
    is classified as a focus-mode activation, so is every transcript that
    contains it. *)
Theorem focus_survives_embedding (a t b ts now : string) (st : state) :
  detect_focus_mode t = true ->
  process_conversation (a ++ t ++ b) ts now st
  = ("focus_mode_activated", activate_focus_mode now st).
Proof.
  intros H. unfold process_conversation.
  assert (Hf : detect_focus_mode (a ++ t ++ b) = true).
  { unfold detect_focus_mode in *. rewrite lower_embed.
    now apply any_in_embed. }
  now rewrite Hf.
Qed.

Lemma focus_survives_embedding_witness :
  detect_focus_mode "Deep Work" = true
  /\ process_conversation ("Hey, " ++ "Deep Work" ++ " starts now") "ts" "now"
       initial_state
     = ("focus_mode_activated", activate_focus_mode "now" initial_state).
Proof.
  split; [reflexivity|].
  apply (focus_survives_embedding "Hey, " "Deep Work" " starts now").
  reflexivity.
Defined.

Lemma category_matches_embed (c a t b : string) :
  category_matches c t = true -> category_matches c (a ++ t ++ b) = true.
Proof.
  unfold category_matches. rewrite lower_embed. apply any_in_embed.
Qed.

(** X2.  Surrounding text never lowers the priority of the detected
    interruption: when a transcript is detected as category [c], every
    transcript containing it is detected as a category ranked at or before
    [c], and is answered as that interruption or as a focus-mode
    activation, never as no action. *)
Theorem embedding_keeps_or_raises_priority
  (a t b ts now : string) (st : state) (c : string) :
  detect_interruption t = Some (mk_detection c) ->
  exists c',
    detect_interruption (a ++ t ++ b) = Some (mk_detection c')
    /\ (rank c' <= rank c)%nat
    /\ (fst (process_conversation (a ++ t ++ b) ts now st)
        = "focus_mode_activated"
        \/ fst (process_conversation (a ++ t ++ b) ts now st)
           = "interruption_" ++ c').
Proof.
  rewrite detect_interruption_first_category.
  destruct (hd_error (matching_categories t)) as [c0|] eqn:Eh; [|discriminate].
  intros [= ->].
  apply hd_error_In in Eh. unfold matching_categories in Eh.
  apply filter_In in Eh. destruct Eh as [Hin Hm].
  assert (Hc : In c (matching_categories (a ++ t ++ b))).
  { unfold matching_categories. apply filter_In.
    split; [exact Hin|now apply category_matches_embed]. }
  destruct (matching_categories (a ++ t ++ b)) as [|c' cs] eqn:Em;
    [contradiction|].
  exists c'.
  assert (Hd : detect_interruption (a ++ t ++ b) = Some (mk_detection c')).
  { now rewrite detect_interruption_first_category, Em. }
  split; [exact Hd|]. split.
  - unfold rank. rewrite <- Em in Hc. unfold matching_categories in Hc, Em.
    apply (rank_hd_filter
             (fun c => category_matches c (a ++ t ++ b))); [|exact Hc].
    now rewrite Em.
  - unfold process_conversation.
    destruct (detect_focus_mode (a ++ t ++ b)); [now left|].
    rewrite Hd. now right.
Qed.

Lemma embedding_keeps_or_raises_priority_witness :
  detect_interruption plain_request = Some (mk_detection "work_request")
  /\ detect_interruption (greeting ++ plain_request ++ "")
     = Some (mk_detection "casual_chat")
  /\ exists c',
       detect_interruption (greeting ++ plain_request ++ "")
       = Some (mk_detection c')
       /\ (rank c' <= rank "work_request")%nat
       /\ (fst (process_conversation (greeting ++ plain_request ++ "")
                  "ts" "now" initial_state) = "focus_mode_activated"
           \/ fst (process_conversation (greeting ++ plain_request ++ "")
                     "ts" "now" initial_state) = "interruption_" ++ c').
Proof.
  split; [reflexivity|]. split; [reflexivity|].
  apply (embedding_keeps_or_raises_priority greeting plain_request "" "ts"
           "now" initial_state "work_request").
  reflexivity.
Defined.

(** X3.  Classification is case-insensitive: two transcripts with the
    same lowercased form get the same answer, and a transcript gets the
    answer of its lowercased form. *)
Theorem classification_ignores_case (t1 t2 ts now : string) (st : state) :
  lower t1 = lower t2 ->
  fst (process_conversation t1 ts now st)
  = fst (process_conversation t2 ts now st)
  /\ fst (process_conversation (lower t1) ts now st)
     = fst (process_conversation t1 ts now st).
Proof.
  intros H. unfold process_conversation, detect_focus_mode,
    detect_interruption. rewrite lower_idem, H.
  destruct (any_in triggers (lower t2)); [split; reflexivity|].
  destruct (first_match patterns (lower t2)); split; reflexivity.
Qed.

Lemma classification_ignores_case_witness :
  lower shouted = lower whispered
  /\ shouted <> whispered
  /\ fst (process_conversation shouted "ts" "now" initial_state)
     = fst (process_conversation whispered "ts" "now" initial_state)
  /\ fst (process_conversation (lower shouted) "ts" "now" initial_state)
     = fst (process_conversation shouted "ts" "now" initial_state).
Proof.
  split; [reflexivity|]. split; [discriminate|].
  apply (classification_ignores_case shouted whispered "ts" "now"
           initial_state).
  reflexivity.
Defined.

Lemma starts_with_suffix (p k t : string) :
  starts_with (p ++ k) t = true -> str_in k t = true.
Proof.
  revert t. induction p as [|c p IH]; intros t.
  - cbn. intros H. destruct t; cbn [str_in]; now rewrite H.
  - destruct t as [|d t]; cbn; [discriminate|].
    intros H. apply andb_prop in H. destruct H as [_ H].
    apply IH in H. cbn [str_in] in *. rewrite H. apply orb_true_r.
Qed.

(** A text that contains a string contains each of its suffixes. *)
Lemma str_in_suffix (p k t : string) :
  str_in (p ++ k) t = true -> str_in k t = true.
Proof.
  induction t as [|d t IH]; cbn [str_in].
  - rewrite orb_false_r. apply starts_with_suffix.
  - intros H. apply orb_prop in H. destruct H as [H|H].
    + apply starts_with_suffix in H. exact H.
    + apply IH in H. now rewrite H, orb_true_r.
Qed.

(** X4.  The trigger ["entering focus mode"] is redundant: a transcript
    is a focus-mode activation exactly when its lowercased form contains
    one of the other four triggers. *)
Theorem entering_trigger_redundant (t : string) :
  detect_focus_mode t = any_in short_triggers (lower t).
Proof.
  unfold detect_focus_mode, any_in, triggers, short_triggers.
  cbn [existsb].
  destruct (str_in "entering focus mode" (lower t)) eqn:E; [|reflexivity].
  apply (str_in_suffix "entering " "focus mode") in E. now rewrite E.
Qed.

Lemma interruption_answer_inj (c c' : string) :
  "interruption_" ++ c = "interruption_" ++ c' -> c = c'.
Proof. cbn. now intros [= ->]. Qed.

(** X5.  The answer of [process_conversation] is one of six strings and
    tells the classification apart: it is ['focus_mode_activated'] exactly
    when a focus trigger is detected, ['interruption_' + c] exactly when
    none is and category [c] is detected, and ['no_action_needed'] exactly
    when neither is. *)
Theorem answer_identifies_classification
  (t ts now : string) (st : state) :
  In (fst (process_conversation t ts now st)) answers
  /\ (fst (process_conversation t ts now st) = "focus_mode_activated"
      <-> detect_focus_mode t = true)
  /\ (forall c,
         fst (process_conversation t ts now st) = "interruption_" ++ c
         <-> detect_focus_mode t = false
             /\ detect_interruption t = Some (mk_detection c))
  /\ (fst (process_conversation t ts now st) = "no_action_needed"
      <-> detect_focus_mode t = false /\ detect_interruption t = None).
Proof.
  unfold process_conversation.
  destruct (detect_focus_mode t) eqn:Ef.
  - cbn [fst]. split; [now left|]. split; [tauto|]. split.
    + intros c. split; [discriminate|]. intros [H _]. discriminate.
    + split; [discriminate|]. intros [H _]. discriminate.
  - destruct (detect_interruption t) as [[c0]|] eqn:Ed; cbn [fst det_type].
    + pose proof (detected_type_enumerated t _ Ed) as Hin. cbn in Hin.
      split.
      { unfold answers.
        destruct Hin as [<-|[<-|[<-|[<-|[]]]]]; cbn; tauto. }
      split; [split; discriminate|]. split.
      * intros c. split.
        -- intros H. apply interruption_answer_inj in H. now subst.
        -- intros [_ [= ->]]. reflexivity.
      * split; [discriminate|]. intros [_ H]. discriminate.
    + split; [cbn; tauto|]. split; [split; discriminate|]. split.
      * intros c. split; [discriminate|]. intros [_ H]. discriminate.
      * tauto.
Qed.

(** ** Runs of requests *)

Lemma handle_log_record (r : request) (st : state) :
  interruptions (handle r st)
  = (interruptions st
     ++ if is_interruption_request r then [request_record r] else [])%list.
Proof.
  destruct r as [|t ts now|]; cbn [handle is_interruption_request];
    try (cbn; now rewrite app_nil_r).
  unfold process_conversation.
  destruct (detect_focus_mode t); cbn [negb andb snd];
    [cbn; now rewrite app_nil_r|].
  destruct (detect_interruption t) as [d|] eqn:Ed; cbn [snd].
  - cbn [request_record]. now rewrite Ed.
  - cbn. now rewrite app_nil_r.
Qed.

(** X6.  The log is append-only and keeps what it received: after any
    run of requests it is the former log followed by one record per
    request classified as an interruption, in arrival order, each holding
    the transcript and the timestamp as received (not lowercased), the
    detected type and 23 minutes. *)
Theorem log_is_appended_in_order (rs : list request) (st : state) :
  interruptions (run rs st)
  = (interruptions st
     ++ map request_record (filter is_interruption_request rs))%list.
Proof.
  revert st. induction rs as [|r rs IH]; intros st.
  - cbn. now rewrite app_nil_r.
  - change (run (r :: rs) st) with (run rs (handle r st)).
    rewrite IH, handle_log_record. cbn [filter].
    destruct (is_interruption_request r); cbn [map].
    + now rewrite <- app_assoc.
    + now rewrite app_nil_r.
Qed.

Lemma handle_user_state (r : request) (st : state) :
  user_state (handle r st)
  = if is_focus_request r
    then mk_focus_state true (Some (request_clock r))
    else user_state st.
Proof.
  destruct r as [|t ts now|]; cbn [handle is_focus_request]; trivial.
  unfold process_conversation.
  destruct (detect_focus_mode t); [reflexivity|].
  now destruct (detect_interruption t).
Qed.

Lemma run_user_state (rs : list request) (st : state) :
  user_state (run rs st)
  = if existsb is_focus_request rs
    then mk_focus_state true (last_focus_clock rs)
    else user_state st.
Proof.
  induction rs as [|r rs IH] using rev_ind; [reflexivity|].
  rewrite run_snoc, handle_user_state, existsb_app. cbn [existsb].
  rewrite orb_false_r.
  unfold last_focus_clock. rewrite rev_app_distr.
  change (rev [r] ++ rev rs)%list with (r :: rev rs). cbn [find].
  destruct (is_focus_request r).
  - now rewrite orb_true_r.
  - rewrite orb_false_r. exact IH.
Qed.

(** X7.  Along every run from the initial state, focus mode is active
    exactly when a start time is recorded, and the start time is the clock
    reading of the most recent focus-mode activation. *)
Theorem focus_start_is_last_activation (rs : list request) :
  let fs := user_state (run rs initial_state) in
  focus_start_time fs = last_focus_clock rs
  /\ (focus_mode_active fs = true <-> exists ts, focus_start_time fs = Some ts)
  /\ (focus_mode_active fs = false <-> focus_start_time fs = None).
Proof.
  cbv zeta. rewrite run_user_state. unfold last_focus_clock.
  destruct (existsb is_focus_request rs) eqn:E.
  - cbn [focus_start_time focus_mode_active].
    assert (Hf : exists r, find is_focus_request (rev rs) = Some r).
    { apply existsb_exists in E. destruct E as (r & Hin & Hr).
      destruct (find is_focus_request (rev rs)) as [r'|] eqn:Ef;
        [now exists r'|].
      apply in_rev in Hin.
      pose proof (find_none _ _ Ef r Hin). congruence. }
    destruct Hf as [r Hr]. rewrite Hr. cbn [option_map].
    split; [reflexivity|]. split; split; try discriminate; eauto.
  - cbn [initial_state user_state focus_start_time focus_mode_active].
    assert (Hf : find is_focus_request (rev rs) = None).
    { destruct (find is_focus_request (rev rs)) as [r|] eqn:Ef;
        [|reflexivity].
      apply find_some in Ef. destruct Ef as [Hin Hr].
      apply in_rev in Hin.
      assert (Ht : existsb is_focus_request rs = true)
        by (apply existsb_exists; now exists r).
      congruence. }
    rewrite Hf. cbn [option_map].
    split; [reflexivity|]. split; split; try discriminate; try reflexivity.
    intros [ts Hts]. discriminate.
Qed.

Lemma handle_outbox (r : request) (st : state) :
  slack_outbox (handle r st)
  = (slack_outbox st
     ++ if is_focus_request r then [FocusModeActivatedMsg]
        else if is_report_request r
             then [DailyFocusReportMsg
                     (generate_daily_report (interruptions st))]
             else [])%list.
Proof.
  destruct r as [|t ts now|];
    cbn [handle is_focus_request is_report_request].
  - now rewrite app_nil_r.
  - unfold process_conversation.
    destruct (detect_focus_mode t); [reflexivity|].
    destruct (detect_interruption t); cbn; now rewrite app_nil_r.
  - reflexivity.
Qed.

(** X8.  Slack gets one message per focus-mode activation and one per
    daily-report request, in the order of the requests, and nothing for an
    interruption, a transcript without action or a health check. *)
Theorem slack_messages_follow_requests (rs : list request) (st : state) :
  map payload_is_report (slack_outbox (run rs st))
  = (map payload_is_report (slack_outbox st)
     ++ map is_report_request
          (filter (fun r => is_focus_request r || is_report_request r) rs))%list.
Proof.
  revert st. induction rs as [|r rs IH]; intros st.
  - cbn. now rewrite app_nil_r.
  - change (run (r :: rs) st) with (run rs (handle r st)).
    rewrite IH, handle_outbox, map_app, <- app_assoc. f_equal.
    cbn [filter].
    destruct (is_focus_request r) eqn:Ef; cbn [orb].
    + destruct r; try discriminate. reflexivity.
    + destruct (is_report_request r) eqn:Er; cbn [map app payload_is_report];
        rewrite ?Er; reflexivity.
Qed.

Lemma firstn_app_le {A : Type} (n : nat) (l l' : list A) :
  (n <= List.length l)%nat -> firstn n (l ++ l') = firstn n l.
Proof.
  intros H. rewrite firstn_app.
  replace (n - List.length l)%nat with 0%nat by lia.
  cbn. now rewrite app_nil_r.
Qed.

Lemma run_reports_are_prefix_reports (rs : list request) (st : state) :
  (forall r, In (DailyFocusReportMsg r) (slack_outbox st) ->
             exists n, (n <= List.length (interruptions st))%nat
                       /\ r = generate_daily_report
                                (firstn n (interruptions st))) ->
  forall r, In (DailyFocusReportMsg r) (slack_outbox (run rs st)) ->
            exists n, (n <= List.length (interruptions (run rs st)))%nat
                      /\ r = generate_daily_report
                               (firstn n (interruptions (run rs st))).
Proof.
  revert st. induction rs as [|q rs IH]; intros st Hst; [exact Hst|].
  change (run (q :: rs) st) with (run rs (handle q st)).
  apply IH. intros r Hr.
  rewrite handle_outbox in Hr. rewrite handle_log_record.
  apply in_app_or in Hr. destruct Hr as [Hr|Hr].
  - destruct (Hst r Hr) as (n & Hn & ->). exists n. split.
    + rewrite length_app. lia.
    + now rewrite firstn_app_le.
  - destruct (is_focus_request q).
    + destruct Hr as [Hr|[]]. discriminate.
    + destruct (is_report_request q) eqn:Eq; [|destruct Hr].
      destruct Hr as [[= <-]|[]].
      exists (List.length (interruptions st)). split.
      * rewrite length_app. lia.
      * rewrite firstn_app_le by lia. now rewrite firstn_all.
Qed.

(** X9.  Every daily report sent to Slack during a run from the initial
    state is the report of a prefix of the final log: it counts records
    that are all still there, each once. *)
Theorem sent_reports_are_prefix_reports (rs : list request) (r : report) :
  In (DailyFocusReportMsg r) (slack_outbox (run rs initial_state)) ->
  exists n,
    (n <= List.length (interruptions (run rs initial_state)))%nat
    /\ r = generate_daily_report
             (firstn n (interruptions (run rs initial_state)))
    /\ total_interruptions r = Z.of_nat n.
Proof.
  intros H.
  destruct (run_reports_are_prefix_reports rs initial_state) with (r := r)
    as (n & Hn & Hr); [intros r' []|exact H|].
  exists n. split; [exact Hn|]. split; [exact Hr|].
  rewrite Hr. cbn [generate_daily_report total_interruptions].
  rewrite length_firstn. lia.
Qed.

Lemma sent_reports_are_prefix_reports_witness :
  In (DailyFocusReportMsg (generate_daily_report sample_day_log))
     (slack_outbox (run sample_day initial_state))
  /\ exists n,
       (n <= List.length (interruptions (run sample_day initial_state)))%nat
       /\ generate_daily_report sample_day_log
          = generate_daily_report
              (firstn n (interruptions (run sample_day initial_state)))
       /\ total_interruptions (generate_daily_report sample_day_log)
          = Z.of_nat n.
Proof.
  assert (H : In (DailyFocusReportMsg (generate_daily_report sample_day_log))
                (slack_outbox (run sample_day initial_state))).
  { right. left. reflexivity. }
  split; [exact H|].
  exact (sent_reports_are_prefix_reports sample_day _ H).
Defined.

Lemma run_focus_flag (rs : list request) :
  focus_mode_active (user_state (run rs initial_state))
  = existsb is_focus_request rs.
Proof. rewrite run_user_state. now destruct (existsb is_focus_request rs). Qed.

Lemma run_log_length (rs : list request) :
  List.length (interruptions (run rs initial_state))
  = List.length (filter is_interruption_request rs).
Proof.
  destruct (run_log rs initial_state) as [_ H]; [constructor|]. exact H.
Qed.

(** X10.  The health check agrees with the rest: after any run from the
    initial state, [interruptions_today] is the number of requests
    classified as interruptions and the total of the daily report made on
    the same state, and [focus_mode_active] tells whether some request
    was a focus-mode activation. *)
Theorem health_check_agrees (rs : list request) (now : string) :
  let st := run rs initial_state in
  interruptions_today (home now st)
  = Z.of_nat (List.length (filter is_interruption_request rs))
  /\ interruptions_today (home now st)
     = total_interruptions (fst (daily_report st))
  /\ health_focus_mode_active (home now st) = existsb is_focus_request rs
  /\ handle Home st = st.
Proof.
  cbv zeta. unfold daily_report.
  cbn [home interruptions_today health_focus_mode_active fst
       generate_daily_report total_interruptions handle].
  rewrite run_focus_flag, run_log_length.
  repeat split.
Qed.

(** ** The per-type mapping *)

Lemma dict_get_set_same {V : Type} (d : dict V) (k : string) (v default : V) :
  dict_get (dict_set d k v) k default = v.
Proof.
  induction d as [|[k' v'] d IH]; cbn [dict_set dict_get].
  - now rewrite String.eqb_refl.
  - destruct (String.eqb k' k) eqn:E; cbn [dict_get]; now rewrite E.
Qed.

Lemma dict_get_set_other {V : Type} (d : dict V) (k k' : string)
  (v default : V) :
  k <> k' -> dict_get (dict_set d k v) k' default = dict_get d k' default.
Proof.
  intros Hne. induction d as [|[k0 v0] d IH]; cbn [dict_set dict_get].
  - destruct (String.eqb_spec k k'); [contradiction|reflexivity].
  - destruct (String.eqb_spec k0 k) as [->|Hk]; cbn [dict_get].
    + destruct (String.eqb_spec k k'); [contradiction|reflexivity].
    + now rewrite IH.
Qed.

Lemma dict_set_keys {V : Type} (d : dict V) (k : string) (v : V) :
  map fst (dict_set d k v)
  = if existsb (String.eqb k) (map fst d) then map fst d
    else (map fst d ++ [k])%list.
Proof.
  induction d as [|[k' v'] d IH]; cbn [dict_set map fst existsb]; [reflexivity|].
  rewrite (String.eqb_sym k k').
  destruct (String.eqb k' k); cbn [orb map fst]; [reflexivity|].
  rewrite IH. now destruct (existsb (String.eqb k) (map fst d)).
Qed.

Lemma count_fold_get (l : list interruption) (d : dict Z) (c : string) :
  dict_get
    (fold_left
       (fun by_type i =>
          dict_set by_type (type i) (dict_get by_type (type i) 0 + 1)) l d)
    c 0
  = dict_get d c 0 + type_count c l.
Proof.
  unfold type_count. revert d.
  induction l as [|i l IH]; intros d; cbn [fold_left map count_occ].
  - lia.
  - rewrite IH. destruct (string_dec (type i) c) as [->|Hne].
    + rewrite dict_get_set_same. lia.
    + now rewrite dict_get_set_other.
Qed.

Lemma count_fold_keys (l : list interruption) (d : dict Z) :
  map fst
    (fold_left
       (fun by_type i =>
          dict_set by_type (type i) (dict_get by_type (type i) 0 + 1)) l d)
  = (map fst d ++ first_seen (map fst d) (map type l))%list.
Proof.
  revert d. induction l as [|i l IH]; intros d;
    cbn [fold_left map first_seen].
  - now rewrite app_nil_r.
  - rewrite IH, dict_set_keys.
    destruct (existsb (String.eqb (type i)) (map fst d)); [reflexivity|].
    now rewrite <- app_assoc.
Qed.

Lemma existsb_eqb_In (c : string) (l : list string) :
  existsb (String.eqb c) l = true <-> In c l.
Proof.
  rewrite existsb_exists. split.
  - intros (x & Hx & He). apply String.eqb_eq in He. now subst.
  - intros H. exists c. split; [exact H|apply String.eqb_refl].
Qed.

Lemma first_seen_spec (l seen : list string) :
  NoDup seen ->
  NoDup (seen ++ first_seen seen l)
  /\ (forall c, In c (seen ++ first_seen seen l) <-> In c seen \/ In c l).
Proof.
  revert seen. induction l as [|a l IH]; intros seen Hnd; cbn [first_seen].
  - rewrite app_nil_r. split; [exact Hnd|]. intros c. cbn. tauto.
  - destruct (existsb (String.eqb a) seen) eqn:E.
    + apply existsb_eqb_In in E. destruct (IH seen Hnd) as [H1 H2].
      split; [exact H1|]. intros c. rewrite H2. cbn.
      split; [tauto|]. intros [H|[<-|H]]; tauto.
    + assert (Ha : ~ In a seen).
      { intros H. apply existsb_eqb_In in H. congruence. }
      assert (Hnd' : NoDup (seen ++ [a])).
      { apply NoDup_app; [exact Hnd|repeat constructor; intros []|].
        intros x Hx [<-|[]]. contradiction. }
      destruct (IH (seen ++ [a])%list Hnd') as [H1 H2].
      change (a :: first_seen (seen ++ [a])%list l)
        with ([a] ++ first_seen (seen ++ [a]) l)%list.
      rewrite app_assoc. split; [exact H1|].
      intros c. rewrite H2, in_app_iff. cbn. tauto.
Qed.

Lemma dict_get_In {V : Type} (d : dict V) (k : string) (v default : V) :
  NoDup (map fst d) -> In (k, v) d -> dict_get d k default = v.
Proof.
  induction d as [|[k' v'] d IH]; cbn [map fst In dict_get]; [tauto|].
  intros Hnd Hin. inversion Hnd as [|? ? Hk Hd]; subst.
  destruct Hin as [[= -> ->]|Hin].
  - now rewrite String.eqb_refl.
  - destruct (String.eqb_spec k' k) as [->|Hne]; [|now apply IH].
    exfalso. apply Hk. apply (in_map fst) in Hin. exact Hin.
Qed.

Lemma count_occ_pos_In (l : list string) (c : string) :
  In c l <-> (1 <= count_occ string_dec l c)%nat.
Proof. rewrite (count_occ_In string_dec). lia. Qed.

Lemma by_type_get (l : list interruption) (c : string) :
  dict_get (interruptions_by_type (generate_daily_report l)) c 0
  = type_count c l.
Proof.
  cbn [generate_daily_report interruptions_by_type]. unfold count_by_type.
  now rewrite count_fold_get.
Qed.

(** X11.  The per-type mapping counts the records: read with default 0,
    as the counting loop reads it, the entry of a type is the number of
    records of that type (0 for a type without record). *)
Theorem by_type_counts_records (l : list interruption) (c : string) :
  dict_get (interruptions_by_type (generate_daily_report l)) c 0
  = type_count c l
  /\ (In c (map type l) <->
      1 <= dict_get (interruptions_by_type (generate_daily_report l)) c 0).
Proof.
  rewrite by_type_get. split; [reflexivity|].
  unfold type_count. rewrite count_occ_pos_In. lia.
Qed.

Lemma by_type_keys (l : list interruption) :
  map fst (interruptions_by_type (generate_daily_report l))
  = first_seen [] (map type l).
Proof.
  cbn [generate_daily_report interruptions_by_type]. unfold count_by_type.
  now rewrite count_fold_keys.
Qed.

(** X12.  The per-type mapping is sparse and ordered: its keys are the
    types that occur in the log, each once, in order of first occurrence,
    and every entry is the count of its type, at least 1. *)
Theorem by_type_is_sparse (l : list interruption) :
  let by_type := interruptions_by_type (generate_daily_report l) in
  map fst by_type = first_seen [] (map type l)
  /\ NoDup (map fst by_type)
  /\ (forall c, In c (map fst by_type) <-> In c (map type l))
  /\ (forall c n, In (c, n) by_type -> n = type_count c l /\ 1 <= n).
Proof.
  cbv zeta. pose proof (by_type_keys l) as Hk.
  destruct (first_seen_spec (map type l) [] (NoDup_nil _)) as [Hnd Hin].
  cbn [app] in Hnd, Hin. rewrite <- Hk in Hnd, Hin.
  split; [exact Hk|]. split; [exact Hnd|]. split.
  - intros c. rewrite Hin. cbn. tauto.
  - intros c n Hcn.
    assert (Hn : n = type_count c l).
    { rewrite <- by_type_get.
      symmetry. now apply dict_get_In. }
    split; [exact Hn|]. subst n. unfold type_count.
    apply (in_map fst) in Hcn. cbn [fst] in Hcn.
    apply Hin in Hcn. destruct Hcn as [[]|Hcn].
    apply count_occ_pos_In in Hcn. lia.
Qed.

(** X13.  For a log reached from the initial state, the per-type mapping
    of the daily report has at most four entries, its keys are among the
    four interruption types, and its counts are at least 1. *)
Theorem reachable_by_type_within_four_types (rs : list request) :
  let rep := fst (daily_report (run rs initial_state)) in
  (List.length (interruptions_by_type rep) <= 4)%nat
  /\ (forall c n, In (c, n) (interruptions_by_type rep) ->
                  In c priority_order /\ 1 <= n).
Proof.
  cbv zeta. unfold daily_report. cbn [fst].
  set (l := interruptions (run rs initial_state)).
  destruct (run_log rs initial_state) as [Hwf _]; [constructor|].
  fold l in Hwf.
  pose proof (by_type_keys l) as Hk.
  destruct (first_seen_spec (map type l) [] (NoDup_nil _)) as [Hnd Hin].
  cbn [app] in Hnd, Hin. rewrite <- Hk in Hnd, Hin.
  assert (Hincl : incl (map fst (interruptions_by_type
                                   (generate_daily_report l)))
                    priority_order).
  { intros c Hc. apply Hin in Hc. destruct Hc as [[]|Hc].
    apply in_map_iff in Hc. destruct Hc as (i & <- & Hi).
    rewrite Forall_forall in Hwf. now apply Hwf. }
  split.
  - rewrite <- (length_map fst).
    apply (NoDup_incl_length Hnd Hincl).
  - intros c n Hcn. split.
    + apply Hincl. apply (in_map fst) in Hcn. exact Hcn.
    + assert (Hn : n = type_count c l).
      { rewrite <- by_type_get. symmetry. now apply dict_get_In. }
      subst n. unfold type_count.
      apply (in_map fst) in Hcn. cbn [fst] in Hcn.
      apply Hin in Hcn. destruct Hcn as [[]|Hcn].
      apply count_occ_pos_In in Hcn. lia.
Qed.

(** X14.  The figures of the report do not depend on the order of the
    log: two logs with the same records in any order give the same total,
    hours lost, focus score and tip, and the same count for every type
    (the keys of the mapping may come in another order). *)
Theorem report_ignores_order (l l' : list interruption) :
  Permutation l l' ->
  total_interruptions (generate_daily_report l)
  = total_interruptions (generate_daily_report l')
  /\ hours_lost (generate_daily_report l)
     = hours_lost (generate_daily_report l')
  /\ focus_score (generate_daily_report l)
     = focus_score (generate_daily_report l')
  /\ tip (generate_daily_report l) = tip (generate_daily_report l')
  /\ (forall c,
         dict_get (interruptions_by_type (generate_daily_report l)) c 0
         = dict_get (interruptions_by_type (generate_daily_report l')) c 0).
Proof.
  intros Hp. pose proof (Permutation_length Hp) as Hlen.
  cbn [generate_daily_report total_interruptions hours_lost focus_score tip].
  rewrite Hlen. repeat split.
  intros c. rewrite !by_type_get. unfold type_count. f_equal.
  apply Permutation_count_occ. now apply Permutation_map.
Qed.

Lemma report_ignores_order_witness :
  Permutation chat_then_urgent urgent_then_chat
  /\ interruptions_by_type (generate_daily_report chat_then_urgent)
     <> interruptions_by_type (generate_daily_report urgent_then_chat)
  /\ total_interruptions (generate_daily_report chat_then_urgent)
     = total_interruptions (generate_daily_report urgent_then_chat)
  /\ hours_lost (generate_daily_report chat_then_urgent)
     = hours_lost (generate_daily_report urgent_then_chat)
  /\ focus_score (generate_daily_report chat_then_urgent)
     = focus_score (generate_daily_report urgent_then_chat)
  /\ tip (generate_daily_report chat_then_urgent)
     = tip (generate_daily_report urgent_then_chat)
  /\ (forall c,
         dict_get (interruptions_by_type
                     (generate_daily_report chat_then_urgent)) c 0
         = dict_get (interruptions_by_type
                       (generate_daily_report urgent_then_chat)) c 0).
Proof.
  assert (Hp : Permutation chat_then_urgent urgent_then_chat)
    by apply perm_swap.
  split; [exact Hp|]. split; [discriminate|].
  exact (report_ignores_order chat_then_urgent urgent_then_chat Hp).
Defined.

(** ** Monotonicity of the rounding functions *)

Lemma rne_mono (a b : Q) : (a <= b)%Q -> rne a <= rne b.
Proof.
  intros Hab. pose proof (Qfloor_resp_le a b Hab) as Hf.
  pose proof (rne_floor_le a) as Ha. pose proof (rne_floor_le b) as Hb.
  destruct (Z_lt_le_dec (Qfloor a) (Qfloor b)) as [Hlt|Hge]; [lia|].
  assert (He : Qfloor a = Qfloor b) by lia.
  unfold rne. rewrite He.
  destruct (Qcompare_spec (a - inject_Z (Qfloor b)) (1 # 2));
    destruct (Qcompare_spec (b - inject_Z (Qfloor b)) (1 # 2));
    try destruct (Z.even (Qfloor b)); try lia; lra.
Qed.

Lemma round53_nonneg (x : Q) : (0 <= x -> 0 <= round53 x)%Q.
Proof.
  intros Hx. destruct (Qeq_dec x 0) as [H0|H0].
  - rewrite (round53_zero x H0). lra.
  - pose proof (round53_ge_grid x 0 H0) as H.
    change (inject_Z 0) with 0%Q in H. rewrite Qmult_0_l in H. now apply H.
Qed.

Lemma ilog2_mono (x y : Q) : (0 < x)%Q -> (x <= y)%Q -> ilog2 x <= ilog2 y.
Proof.
  intros Hx Hxy.
  assert (Hy : (0 < y)%Q) by lra.
  pose proof (ilog2_lower x Hx) as H1. pose proof (ilog2_upper y Hy) as H2.
  assert (H : (2 ^ ilog2 x < 2 ^ (ilog2 y + 1))%Q) by lra.
  apply Qpower_lt_compat_l_inv in H; [lia|reflexivity].
Qed.

Lemma round53_mono_pos (x y : Q) :
  (0 < x)%Q -> (x <= y)%Q -> (round53 x <= round53 y)%Q.
Proof.
  intros Hx Hxy.
  assert (Hy : (0 < y)%Q) by lra.
  assert (Hxn : ~ (x == 0)%Q) by lra.
  assert (Hyn : ~ (y == 0)%Q) by lra.
  assert (He : ulp_exp x <= ulp_exp y).
  { unfold ulp_exp. rewrite (Qabs_of_pos x Hx), (Qabs_of_pos y Hy).
    pose proof (ilog2_mono x y Hx Hxy). lia. }
  rewrite (round53_nonzero x Hxn), (round53_nonzero y Hyn).
  pose proof (pow2_pos (ulp_exp x)) as Hpx.
  pose proof (pow2_pos (ulp_exp y)) as Hpy.
  destruct (Z.eq_dec (ulp_exp x) (ulp_exp y)) as [Heq|Hne].
  - rewrite Heq in *. apply Qmult_le_compat_r; [|lra].
    rewrite <- Zle_Qle. apply rne_mono.
    apply Qmult_le_compat_r; [exact Hxy|].
    apply Qlt_le_weak, Qinv_lt_0_compat, Hpy.
  - pose proof (round53_significand x Hx) as [_ Hsx].
    pose proof (round53_significand y Hy) as [Hsy _].
    rewrite Zle_Qle in Hsx, Hsy.
    apply Qle_trans with (inject_Z (2 ^ 53) * 2 ^ ulp_exp x)%Q.
    { apply Qmult_le_compat_r; [exact Hsx|lra]. }
    apply Qle_trans with (inject_Z (2 ^ 52) * 2 ^ ulp_exp y)%Q.
    2:{ apply Qmult_le_compat_r; [exact Hsy|lra]. }
    change (inject_Z (2 ^ 53)) with (2 ^ 53)%Q.
    change (inject_Z (2 ^ 52)) with (2 ^ 52)%Q.
    rewrite <- !Qpower_plus by discriminate.
    apply Qpower_le_compat_l; [lia|discriminate].
Qed.

Lemma round53_mono_nonneg (x y : Q) :
  (0 <= x)%Q -> (x <= y)%Q -> (round53 x <= round53 y)%Q.
Proof.
  intros Hx Hxy. destruct (Qeq_dec x 0) as [H0|H0].
  - rewrite (round53_zero x H0). apply round53_nonneg. lra.
  - apply round53_mono_pos; [|exact Hxy].
    apply Qle_lteq in Hx. destruct Hx as [Hx|Hx]; [exact Hx|].
    symmetry in Hx. contradiction.
Qed.

Lemma hours_lost_of_expr (n : Z) :
  hours_lost_of n
  = PyFloat (decimal1 (rne (round53 (inject_Z (n * 23) / inject_Z 60) * 10))).
Proof. reflexivity. Qed.

Lemma hours_lost_of_mono (n m : Z) :
  0 <= n <= m -> (pyval (hours_lost_of n) <= pyval (hours_lost_of m))%Q.
Proof.
  intros Hnm. rewrite !hours_lost_of_expr. cbn [pyval]. unfold decimal1.
  assert (Hq : forall k, 0 <= k -> (0 <= inject_Z (k * 23) / inject_Z 60)%Q).
  { intros k Hk. apply Qle_shift_div_l; [reflexivity|].
    rewrite Qmult_0_l. change 0%Q with (inject_Z 0). rewrite <- Zle_Qle. lia. }
  assert (H1 : (round53 (inject_Z (n * 23) / inject_Z 60)
                <= round53 (inject_Z (m * 23) / inject_Z 60))%Q).
  { apply round53_mono_nonneg; [apply Hq; lia|].
    apply Qmult_le_compat_r; [|discriminate].
    rewrite <- Zle_Qle. lia. }
  assert (H0 : (0 <= round53 (inject_Z (n * 23) / inject_Z 60))%Q)
    by (apply round53_nonneg, Hq; lia).
  set (x := round53 (inject_Z (n * 23) / inject_Z 60)) in *.
  set (y := round53 (inject_Z (m * 23) / inject_Z 60)) in *.
  assert (H2 : rne (x * 10) <= rne (y * 10)) by (apply rne_mono; lra).
  assert (H3 : 0 <= rne (x * 10)).
  { apply rne_ge_Z. change (inject_Z 0) with 0%Q. lra. }
  apply round53_mono_nonneg.
  - apply Qle_shift_div_l; [reflexivity|]. rewrite Qmult_0_l.
    change 0%Q with (inject_Z 0). now rewrite <- Zle_Qle.
  - apply Qmult_le_compat_r; [|discriminate]. now rewrite <- Zle_Qle.
Qed.

Lemma hours_lost_as_function (l : list interruption) :
  hours_lost (generate_daily_report l)
  = hours_lost_of (Z.of_nat (List.length l)).
Proof. reflexivity. Qed.

Lemma focus_score_as_function (l : list interruption) :
  focus_score (generate_daily_report l)
  = focus_score_of (Z.of_nat (List.length l)).
Proof. reflexivity. Qed.

(** X15.  Hours lost grow with the log: a log that is at least as long
    never shows fewer hours lost; hours lost are never negative, and they
    are zero for the empty log only. *)
Theorem hours_lost_grows_with_log (l l' : list interruption) :
  (List.length l <= List.length l')%nat ->
  (pyval (hours_lost (generate_daily_report l))
   <= pyval (hours_lost (generate_daily_report l')))%Q
  /\ (0 <= pyval (hours_lost (generate_daily_report l)))%Q
  /\ (pyval (hours_lost (generate_daily_report l)) == 0 <-> l = [])%Q.
Proof.
  intros Hlen. rewrite !hours_lost_as_function.
  split; [apply hours_lost_of_mono; lia|].
  assert (H0 : (0 <= pyval (hours_lost_of (Z.of_nat (List.length l))))%Q).
  { assert (Hz : pyval (hours_lost_of 0) = 0%Q) by (vm_compute; reflexivity).
    rewrite <- Hz. apply hours_lost_of_mono. lia. }
  split; [exact H0|]. split.
  - intros Hz. destruct l as [|i l]; [reflexivity|]. exfalso.
    assert (H1 : (pyval (hours_lost_of 1)
                  <= pyval (hours_lost_of
                              (Z.of_nat (List.length (i :: l)))))%Q)
      by (apply hours_lost_of_mono; cbn [List.length]; lia).
    assert (Hp : (0 < pyval (hours_lost_of 1))%Q) by (vm_compute; reflexivity).
    lra.
  - intros ->. vm_compute. reflexivity.
Qed.

Lemma hours_lost_grows_with_log_witness :
  (List.length (repeat sample_record 3)
   <= List.length (repeat sample_record 9))%nat
  /\ (pyval (hours_lost (generate_daily_report (repeat sample_record 3)))
      <= pyval (hours_lost (generate_daily_report (repeat sample_record 9))))%Q
  /\ (0 <= pyval (hours_lost (generate_daily_report (repeat sample_record 3))))%Q
  /\ (pyval (hours_lost (generate_daily_report (repeat sample_record 3))) == 0
      <-> repeat sample_record 3 = [])%Q.
Proof.
  assert (H : (List.length (repeat sample_record 3)
               <= List.length (repeat sample_record 9))%nat)
    by (cbn; lia).
  split; [exact H|].
  exact (hours_lost_grows_with_log (repeat sample_record 3)
           (repeat sample_record 9) H).
Defined.

Lemma focus_score_of_step (k : nat) :
  (k < 26)%nat ->
  (pyval (focus_score_of (Z.of_nat (S k)))
   <= pyval (focus_score_of (Z.of_nat k)))%Q.
Proof.
  intros Hk.
  do 26 (destruct k as [|k]; [vm_compute; discriminate|]).
  lia.
Qed.

Lemma focus_score_of_small_antitone (d k : nat) :
  (k + d <= 26)%nat ->
  (pyval (focus_score_of (Z.of_nat (k + d)))
   <= pyval (focus_score_of (Z.of_nat k)))%Q.
Proof.
  induction d as [|d IH]; intros H.
  - rewrite Nat.add_0_r. apply Qle_refl.
  - replace (k + S d)%nat with (S (k + d)) by lia.
    apply Qle_trans with (pyval (focus_score_of (Z.of_nat (k + d)))).
    + apply focus_score_of_step. lia.
    + apply IH. lia.
Qed.

Lemma focus_score_of_floor (n : Z) : 27 <= n -> focus_score_of n = PyInt 1.
Proof. apply focus_score_floor. Qed.

Lemma focus_score_of_range (n : nat) :
  (1 <= pyval (focus_score_of (Z.of_nat n)) <= 10)%Q.
Proof.
  destruct (Z_lt_le_dec (Z.of_nat n) 27) as [Hs|Hb].
  - destruct (focus_score_small (Z.of_nat n)) as (_ & _ & H); [lia|exact H].
  - rewrite (focus_score_of_floor _ Hb). vm_compute. split; discriminate.
Qed.

Lemma focus_score_of_antitone (n m : nat) :
  (n <= m)%nat ->
  (pyval (focus_score_of (Z.of_nat m))
   <= pyval (focus_score_of (Z.of_nat n)))%Q.
Proof.
  intros Hnm. destruct (le_lt_dec m 26) as [Hs|Hb].
  - replace m with (n + (m - n))%nat by lia.
    apply focus_score_of_small_antitone. lia.
  - rewrite (focus_score_of_floor (Z.of_nat m)) by lia.
    apply focus_score_of_range.
Qed.

(** X16.  The focus score falls as the log grows: a log that is at least
    as long never has a higher score; the score is 10 for the empty log
    only, and it is at its floor 1 exactly from 27 records on. *)
Theorem focus_score_falls_with_log (l l' : list interruption) :
  (List.length l <= List.length l')%nat ->
  (pyval (focus_score (generate_daily_report l'))
   <= pyval (focus_score (generate_daily_report l)))%Q
  /\ (pyval (focus_score (generate_daily_report l)) == 10 <-> l = [])%Q
  /\ (pyval (focus_score (generate_daily_report l)) == 1
      <-> (27 <= List.length l)%nat)%Q.
Proof.
  intros Hlen. rewrite !focus_score_as_function.
  split; [now apply focus_score_of_antitone|]. split; split.
  - intros Hz. destruct l as [|i l]; [reflexivity|]. exfalso.
    assert (H1 : (pyval (focus_score_of
                           (Z.of_nat (List.length (i :: l))))
                  <= pyval (focus_score_of (Z.of_nat 1)))%Q)
      by (apply focus_score_of_antitone; cbn [List.length]; lia).
    assert (Hp : (pyval (focus_score_of (Z.of_nat 1)) < 10)%Q)
      by (vm_compute; reflexivity).
    lra.
  - intros ->. vm_compute. reflexivity.
  - intros Hz. destruct (le_lt_dec 27 (List.length l)) as [H|H]; [exact H|].
    exfalso.
    assert (H1 : (pyval (focus_score_of (Z.of_nat 26))
                  <= pyval (focus_score_of (Z.of_nat (List.length l))))%Q)
      by (apply focus_score_of_antitone; lia).
    assert (Hp : (1 < pyval (focus_score_of (Z.of_nat 26)))%Q)
      by (vm_compute; reflexivity).
    lra.
  - intros H. rewrite focus_score_of_floor by lia. vm_compute. reflexivity.
Qed.

Lemma focus_score_falls_with_log_witness :
  (List.length (repeat sample_record 3)
   <= List.length (repeat sample_record 9))%nat
  /\ (pyval (focus_score (generate_daily_report (repeat sample_record 9)))
      <= pyval (focus_score (generate_daily_report (repeat sample_record 3))))%Q
  /\ (pyval (focus_score (generate_daily_report (repeat sample_record 3))) == 10
      <-> repeat sample_record 3 = [])%Q
  /\ (pyval (focus_score (generate_daily_report (repeat sample_record 3))) == 1
      <-> (27 <= List.length (repeat sample_record 3))%nat)%Q.
Proof.
  assert (H : (List.length (repeat sample_record 3)
               <= List.length (repeat sample_record 9))%nat)
    by (cbn; lia).
  split; [exact H|].
  exact (focus_score_falls_with_log (repeat sample_record 3)
           (repeat sample_record 9) H).
Defined.

(** X17.  Tip and score tell the same story: the report carries the
    high-interruption tip exactly when its focus score is below 5, and
    the positive tip exactly when its focus score is above 8.5. *)
Theorem tip_follows_focus_score (l : list interruption) :
  (tip (generate_daily_report l) = TIP_HIGH
   <-> (pyval (focus_score (generate_daily_report l)) < 5)%Q)
  /\ (tip (generate_daily_report l) = TIP_GREAT
      <-> ((17 # 2) < pyval (focus_score (generate_daily_report l)))%Q).
Proof.
  rewrite focus_score_as_function.
  cbn [generate_daily_report tip]. unfold get_tip.
  set (n := List.length l).
  assert (Hhi : (16 <= n)%nat ->
                (pyval (focus_score_of (Z.of_nat n)) < 5)%Q).
  { intros H. apply Qle_lt_trans with (pyval (focus_score_of (Z.of_nat 16))).
    - now apply focus_score_of_antitone.
    - vm_compute. reflexivity. }
  assert (Hmid1 : (n <= 15)%nat ->
                  (5 <= pyval (focus_score_of (Z.of_nat n)))%Q).
  { intros H. apply Qle_trans with (pyval (focus_score_of (Z.of_nat 15))).
    - vm_compute. discriminate.
    - now apply focus_score_of_antitone. }
  assert (Hmid2 : (5 <= n)%nat ->
                  (pyval (focus_score_of (Z.of_nat n)) <= 17 # 2)%Q).
  { intros H. apply Qle_trans with (pyval (focus_score_of (Z.of_nat 5))).
    - now apply focus_score_of_antitone.
    - vm_compute. discriminate. }
  assert (Hlo : (n <= 4)%nat ->
                ((17 # 2) < pyval (focus_score_of (Z.of_nat n)))%Q).
  { intros H. apply Qlt_le_trans with (pyval (focus_score_of (Z.of_nat 4))).
    - vm_compute. reflexivity.
    - now apply focus_score_of_antitone. }
  destruct (Z.ltb_spec 15 (Z.of_nat n)) as [H|H].
  - split; split; try discriminate.
    + intros _. apply Hhi. lia.
    + intros _. reflexivity.
    + intros Hc. specialize (Hmid2 ltac:(lia)). lra.
  - destruct (Z.ltb_spec (Z.of_nat n) 5) as [H5|H5].
    + split; split; try discriminate.
      * intros Hc. specialize (Hmid1 ltac:(lia)). lra.
      * intros _. apply Hlo. lia.
      * intros _. reflexivity.
    + split; split; try discriminate.
      * intros Hc. specialize (Hmid1 ltac:(lia)). lra.
      * intros Hc. specialize (Hmid2 ltac:(lia)). lra.
Qed.

(** ** The webhook *)


Lemma extract_timestamp_obj (fields : list (string * json)) (now : string) :
  extract_timestamp (JObj fields) now
  = Ok (if truthy (dict_get fields "created_at" JNull)
        then dict_get fields "created_at" JNull
        else if truthy (dict_get fields "timestamp" JNull)
             then dict_get fields "timestamp" JNull
             else JStr now).
Proof.
  unfold extract_timestamp. cbn [py_get bind].
  destruct (truthy (dict_get fields "created_at" JNull)); [reflexivity|].
  now destruct (truthy (dict_get fields "timestamp" JNull)).
Qed.

Lemma extract_transcript_key (fields : list (string * json)) :
  has_key fields "transcript" = true ->
  extract_transcript (JObj fields)
  = Ok (dict_get fields "transcript" (JStr "")).
Proof.
  unfold has_key, extract_transcript. cbn [py_in bind]. now intros ->.
Qed.

Lemma webhook_omi_not_obj (data : json) (now_ts now : string) (st : state) :
  is_obj data = false -> webhook_omi data now_ts now st = Responded Failed st.
Proof.
  intros H. unfold webhook_omi, extract_transcript, extract_timestamp.
  destruct data as [| b | v | s | items | fields]; try discriminate;
    cbn [py_in py_get bind]; try reflexivity.
  - destruct (str_in "transcript" s); cbn [bind py_get]; [reflexivity|].
    destruct (str_in "transcript_segments" s); cbn [bind py_get];
      [reflexivity|].
    destruct (str_in "structured" s); reflexivity.
  - destruct (existsb _ items); cbn [bind py_get]; [reflexivity|].
    destruct (existsb _ items); cbn [bind py_get]; [reflexivity|].
    destruct (existsb _ items); reflexivity.
Qed.

(** X18.  A payload that is not a JSON object, or whose [transcript] key
    holds anything but a string ([null], a number, a list), is answered
    by the failure response, whatever else it carries, and leaves the log,
    the focus state and the outbox as they were: it is not treated as an
    empty transcript. *)
Theorem webhook_fails_on_ill_typed_payload
  (data : json) (now_ts now : string) (st : state) :
  is_obj data = false
  \/ (exists fields,
         data = JObj fields
         /\ has_key fields "transcript" = true
         /\ is_str (dict_get fields "transcript" (JStr "")) = false) ->
  webhook_omi data now_ts now st = Responded Failed st.
Proof.
  intros [H|(fields & -> & Hk & Hs)]; [now apply webhook_omi_not_obj|].
  unfold webhook_omi.
  rewrite (extract_transcript_key fields Hk), extract_timestamp_obj.
  cbn [bind].
  destruct (dict_get fields "transcript" (JStr "")); try reflexivity.
  discriminate.
Qed.

Lemma webhook_fails_on_ill_typed_payload_witness :
  (is_obj null_transcript_payload = false
   \/ (exists fields,
          null_transcript_payload = JObj fields
          /\ has_key fields "transcript" = true
          /\ is_str (dict_get fields "transcript" (JStr "")) = false))
  /\ webhook_omi null_transcript_payload "c1" "c2" focused_state
     = Responded Failed focused_state.
Proof.
  assert (H : is_obj null_transcript_payload = false
              \/ (exists fields,
                     null_transcript_payload = JObj fields
                     /\ has_key fields "transcript" = true
                     /\ is_str (dict_get fields "transcript" (JStr ""))
                        = false)).
  { right. eexists. split; [reflexivity|]. split; reflexivity. }
  split; [exact H|].
  exact (webhook_fails_on_ill_typed_payload null_transcript_payload "c1" "c2"
           focused_state H).
Defined.

(** X19.  A payload object with none of the keys [transcript],
    [transcript_segments] and [structured] is processed as the empty
    transcript: the answer is ['no_action_needed'] and nothing changes. *)
Theorem webhook_without_transcript_keys
  (fields : list (string * json)) (now_ts now ts : string) (st : state) :
  has_key fields "transcript" = false ->
  has_key fields "transcript_segments" = false ->
  has_key fields "structured" = false ->
  extract_timestamp (JObj fields) now_ts = Ok (JStr ts) ->
  extract_transcript (JObj fields) = Ok (JStr "")
  /\ webhook_omi (JObj fields) now_ts now st
     = Responded (Processed "no_action_needed") st.
Proof.
  unfold has_key. intros H1 H2 H3 Ht.
  assert (He : extract_transcript (JObj fields) = Ok (JStr "")).
  { unfold extract_transcript. cbn [py_in bind]. now rewrite H1, H2, H3. }
  split; [exact He|]. unfold webhook_omi. rewrite He, Ht. reflexivity.
Qed.

Lemma webhook_without_transcript_keys_witness :
  has_key [("session_id", JStr "abc"); ("timestamp", JNum (PyInt 0))]
    "transcript" = false
  /\ webhook_omi
       (JObj [("session_id", JStr "abc"); ("timestamp", JNum (PyInt 0))])
       "2024-01-01T09:00:00" "c2" focused_state
     = Responded (Processed "no_action_needed") focused_state.
Proof.
  split; [reflexivity|].
  apply (webhook_without_transcript_keys
           [("session_id", JStr "abc"); ("timestamp", JNum (PyInt 0))]
           "2024-01-01T09:00:00" "c2" "2024-01-01T09:00:00" focused_state);
    reflexivity.
Defined.

(** The webhook on an object whose transcript is a string: the response
    to that string and to the timestamp of the payload. *)
Lemma webhook_omi_obj (fields : list (string * json)) (t now_ts now : string)
  (st : state) :
  extract_transcript (JObj fields) = Ok (JStr t) ->
  webhook_omi (JObj fields) now_ts now st
  = respond t (payload_timestamp fields now_ts) now st.
Proof.
  intros He. unfold webhook_omi.
  now rewrite He, extract_timestamp_obj.
Qed.

Lemma respond_str (t ts now : string) (st : state) :
  respond t (JStr ts) now st
  = Responded (Processed (fst (process_conversation t ts now st)))
      (snd (process_conversation t ts now st)).
Proof.
  cbn [respond]. now destruct (process_conversation t ts now st).
Qed.

(** The answer does not depend on the timestamp. *)
Lemma respond_answer (t : string) (v : json) (ts now : string) (st : state) :
  outcome_response (respond t v now st)
  = Processed (fst (process_conversation t ts now st)).
Proof.
  assert (Hs : forall ts', outcome_response (respond t (JStr ts') now st)
                           = Processed (fst (process_conversation t ts now st))).
  { intros ts'. rewrite respond_str. cbn [outcome_response].
    unfold process_conversation. destruct (detect_focus_mode t); [reflexivity|].
    now destruct (detect_interruption t). }
  destruct v; try apply Hs; cbn [respond]; unfold process_conversation;
    (destruct (detect_focus_mode t); [reflexivity|]);
    now destruct (detect_interruption t).
Qed.


(** X20.  The [transcript] key takes precedence: when it holds a string,
    the outcome of the webhook is the response to that string and to the
    timestamp of the payload, whatever [transcript_segments] and
    [structured] hold, well formed or not; its answer is the answer of
    [process_conversation] on that string, and with a string timestamp
    its state is the state [process_conversation] leaves. *)
Theorem webhook_transcript_key_wins
  (fields : list (string * json)) (t now_ts now : string) (st : state) :
  has_key fields "transcript" = true ->
  dict_get fields "transcript" (JStr "") = JStr t ->
  webhook_omi (JObj fields) now_ts now st
  = respond t (payload_timestamp fields now_ts) now st
  /\ (forall ts,
         outcome_response (webhook_omi (JObj fields) now_ts now st)
         = Processed (fst (process_conversation t ts now st)))
  /\ (forall ts,
         payload_timestamp fields now_ts = JStr ts ->
         webhook_omi (JObj fields) now_ts now st
         = Responded (Processed (fst (process_conversation t ts now st)))
             (snd (process_conversation t ts now st))).
Proof.
  intros Hk Hv.
  assert (He : extract_transcript (JObj fields) = Ok (JStr t))
    by (now rewrite (extract_transcript_key fields Hk), Hv).
  rewrite (webhook_omi_obj fields t now_ts now st He).
  split; [reflexivity|]. split.
  - intros ts. apply respond_answer.
  - intros ts ->. apply respond_str.
Qed.

Lemma webhook_transcript_key_wins_witness :
  has_key [ ("transcript_segments", JNum (PyInt 7));
            ("transcript", JStr "Quick question about lunch");
            ("structured", JNull);
            ("created_at", JStr "");
            ("timestamp", JStr "2024-01-01T10:00:00") ] "transcript" = true
  /\ webhook_omi plain_payload "c1" "c2" initial_state
     = Responded (Processed "interruption_casual_chat")
         (mk_state
            [mk_interruption "Quick question about lunch"
               "2024-01-01T10:00:00" "casual_chat" 23]
            (mk_focus_state false None) [])
  /\ webhook_omi plain_payload "c1" "c2" initial_state
     = Responded
         (Processed
            (fst (process_conversation "Quick question about lunch"
                    "2024-01-01T10:00:00" "c2" initial_state)))
         (snd (process_conversation "Quick question about lunch"
                 "2024-01-01T10:00:00" "c2" initial_state)).
Proof.
  split; [reflexivity|]. split; [reflexivity|].
  destruct (webhook_transcript_key_wins
              [ ("transcript_segments", JNum (PyInt 7));
                ("transcript", JStr "Quick question about lunch");
                ("structured", JNull);
                ("created_at", JStr "");
                ("timestamp", JStr "2024-01-01T10:00:00") ]
              "Quick question about lunch" "c1" "c2" initial_state
              eq_refl eq_refl) as (_ & _ & H).
  exact (H "2024-01-01T10:00:00" eq_refl).
Defined.






(** Joining can also make a trigger out of two segments, and a segment
    without text leaves a double space. *)
Lemma segment_join_samples :
  webhook_omi split_trigger_payload "c1" "c2" initial_state
  = Responded (Processed "focus_mode_activated")
      (activate_focus_mode "c2" initial_state)
  /\ extract_transcript segments_payload
     = Ok (JStr " Time for Deep Work see you at lunch").
Proof. split; reflexivity. Qed.

(** X22.  A recorded interruption, in whatever format its transcript
    came, is stamped with [created_at] when that is true, else with
    [timestamp] when that is true, else with the server clock (so [null],
    an empty string, zero and [false] fall through).  The record appended
    to the log holds the transcript as extracted, that stamp, the detected
    type and 23 minutes; the focus state and the outbox are as they were.
    A stamp that is not a string is stored as it is. *)
Theorem webhook_stamps_interruption
  (fields : list (string * json)) (t c now_ts now : string) (st : state) :
  extract_transcript (JObj fields) = Ok (JStr t) ->
  detect_focus_mode t = false ->
  detect_interruption t = Some (mk_detection c) ->
  let created := dict_get fields "created_at" JNull in
  let stamped := dict_get fields "timestamp" JNull in
  let stamp :=
    if truthy created then created
    else if truthy stamped then stamped else JStr now_ts in
  (forall ts,
      stamp = JStr ts ->
      exists st',
        webhook_omi (JObj fields) now_ts now st
        = Responded (Processed ("interruption_" ++ c)) st'
        /\ interruptions st'
           = (interruptions st ++ [mk_interruption t ts c 23])%list
        /\ user_state st' = user_state st
        /\ slack_outbox st' = slack_outbox st)
  /\ (is_str stamp = false ->
      webhook_omi (JObj fields) now_ts now st
      = RespondedRaw (Processed ("interruption_" ++ c)) st
          (mk_raw_interruption t stamp c 23)).
Proof.
  intros He Hf Hd. cbv zeta.
  rewrite (webhook_omi_obj fields t now_ts now st He).
  unfold payload_timestamp.
  set (stamp := if truthy (dict_get fields "created_at" JNull)
                then dict_get fields "created_at" JNull
                else if truthy (dict_get fields "timestamp" JNull)
                     then dict_get fields "timestamp" JNull
                     else JStr now_ts).
  split.
  - intros ts ->. rewrite respond_str.
    unfold process_conversation. rewrite Hf, Hd. cbn [fst snd det_type].
    eexists. split; [reflexivity|]. repeat split.
  - intros Hs. destruct stamp; try discriminate;
      cbn [respond]; now rewrite Hf, Hd.
Qed.

Lemma webhook_stamps_interruption_witness :
  extract_transcript epoch_interruption_payload = Ok (JStr "Quick question")
  /\ webhook_omi epoch_interruption_payload "c1" "c2" initial_state
     = RespondedRaw (Processed "interruption_work_request") initial_state
         (mk_raw_interruption "Quick question" (JNum (PyInt 1704099600))
            "work_request" 23)
  /\ exists st',
       webhook_omi
         (JObj [ ("structured", JObj [("overview", JStr "Quick question")]);
                 ("created_at", JStr "");
                 ("timestamp", JStr "2024-01-01T10:00:00") ])
         "c1" "c2" initial_state
       = Responded (Processed ("interruption_" ++ "work_request")) st'
       /\ interruptions st'
          = (interruptions initial_state
             ++ [mk_interruption "Quick question" "2024-01-01T10:00:00"
                   "work_request" 23])%list
       /\ user_state st' = user_state initial_state
       /\ slack_outbox st' = slack_outbox initial_state.
Proof.
  split; [reflexivity|]. split.
  - pose proof (webhook_stamps_interruption
                  [ ("structured", JObj [("overview", JStr "Quick question")]);
                    ("created_at", JNum (PyInt 1704099600)) ]
                  "Quick question" "work_request" "c1" "c2" initial_state
                  eq_refl eq_refl eq_refl) as H.
    cbv zeta in H. destruct H as [_ H]. exact (H eq_refl).
  - pose proof (webhook_stamps_interruption
                  [ ("structured", JObj [("overview", JStr "Quick question")]);
                    ("created_at", JStr "");
                    ("timestamp", JStr "2024-01-01T10:00:00") ]
                  "Quick question" "work_request" "c1" "c2" initial_state
                  eq_refl eq_refl eq_refl) as H.
    cbv zeta in H. destruct H as [H _].
    exact (H "2024-01-01T10:00:00" eq_refl).
Defined.

(** ** The figures of the report against IEEE-754 rounding *)

Lemma rne_rounds_to_int (x : Q) : rounds_to_int x (rne x).
Proof.
  pose proof (rne_bounds x) as [Hl Hu]. split.
  - apply Qabs_Qle_condition. split; lra.
  - unfold rne in *. pose proof (Qfloor_le x) as Hf.
    pose proof (Qlt_floor x) as Hc.
    rewrite inject_Z_plus in Hc. change (inject_Z 1) with 1%Q in Hc.
    destruct (Qcompare_spec (x - inject_Z (Qfloor x)) (1 # 2)) as [He|Hlt|Hgt].
    + destruct (Z.even (Qfloor x)) eqn:E; [intros _; exact E|].
      intros _. rewrite Z.even_add, E. reflexivity.
    + intros H. exfalso.
      rewrite Qabs_neg in H by lra. lra.
    + intros H. exfalso. rewrite inject_Z_plus in H.
      change (inject_Z 1) with 1%Q in H.
      rewrite Qabs_pos in H by lra. lra.
Qed.

Lemma rounds_to_int_unique (x : Q) (d d' : Z) :
  rounds_to_int x d -> rounds_to_int x d' -> d = d'.
Proof.
  intros [H1 E1] [H2 E2].
  apply Qabs_Qle_condition in H1. apply Qabs_Qle_condition in H2.
  destruct H1 as [H1a H1b], H2 as [H2a H2b].
  assert (Hlt : (inject_Z (d - d') < inject_Z 2)%Q /\
                (inject_Z (-2) < inject_Z (d - d'))%Q).
  { unfold Z.sub. rewrite inject_Z_plus, inject_Z_opp.
    change (inject_Z 2) with 2%Q. change (inject_Z (-2)) with (-2)%Q.
    split; lra. }
  destruct Hlt as [Ha Hb]. rewrite <- Zlt_Qlt in Ha, Hb.
  destruct (Z.eq_dec d d') as [|Hne]; [assumption|exfalso].
  assert (Hd : d = d' + 1 \/ d' = d + 1) by lia.
  assert (Ev : Z.even d = true /\ Z.even d' = true).
  { destruct Hd as [Hd|Hd]; subst; rewrite inject_Z_plus in *;
      change (inject_Z 1) with 1%Q in *.
    - split.
      + apply E1. rewrite Qabs_pos by lra. lra.
      + apply E2. rewrite Qabs_neg by lra. lra.
    - split.
      + apply E1. rewrite Qabs_neg by lra. lra.
      + apply E2. rewrite Qabs_pos by lra. lra. }
  destruct Ev as [Ev1 Ev2].
  destruct Hd as [Hd|Hd]; subst; rewrite Z.even_add in *;
    rewrite ?Ev1, ?Ev2 in *; discriminate.
Qed.

Lemma Qred_idem (q : Q) : Qred q = Qred (Qred q).
Proof. symmetry. apply Qred_complete, Qred_correct. Qed.

Lemma round53_reduced (x : Q) : round53 x = Qred (round53 x).
Proof.
  unfold round53. destruct (Qeq_bool x 0); [reflexivity|apply Qred_idem].
Qed.

(** [round53] is rounding to the nearest double. *)
Lemma round53_rounds_to_double (x : Q) :
  (0 <= x)%Q -> rounds_to_double x (round53 x).
Proof.
  intros Hx. destruct (Qeq_dec x 0) as [H0|H0].
  - left. split; [exact H0|now apply round53_zero].
  - right.
    assert (Hpos : (0 < x)%Q).
    { apply Qle_lteq in Hx. destruct Hx as [?|E]; [assumption|].
      symmetry in E. contradiction. }
    split; [exact Hpos|]. split; [apply round53_reduced|].
    exists (rne (x / 2 ^ ulp_exp x)), (ulp_exp x).
    split; [now apply round53_nonzero|].
    split; [now apply ulp_exp_lower|]. split.
    + unfold ulp_exp. rewrite (Qabs_of_pos x Hpos).
      replace (ilog2 x - 52 + 53) with (ilog2 x + 1) by lia.
      now apply ilog2_upper.
    + apply rne_rounds_to_int.
Qed.

(** The three conditions leave one value: the rounding is a function. *)
Lemma rounds_to_double_unique (x v v' : Q) :
  rounds_to_double x v -> rounds_to_double x v' -> v = v'.
Proof.
  intros [[H0 ->]|(Hx & Hr & m & e & Hv & Hl & Hu & Hm)]
         [[H0' ->]|(Hx' & Hr' & m' & e' & Hv' & Hl' & Hu' & Hm')];
    try reflexivity; try lra.
  assert (He : e = e').
  { assert (H1 : (2 ^ (e + 52) < 2 ^ (e' + 53))%Q) by lra.
    assert (H2 : (2 ^ (e' + 52) < 2 ^ (e + 53))%Q) by lra.
    apply Qpower_lt_compat_l_inv in H1; [|reflexivity].
    apply Qpower_lt_compat_l_inv in H2; [|reflexivity]. lia. }
  subst e'.
  assert (Hmm : m = m') by (eapply rounds_to_int_unique; eassumption).
  subst m'. rewrite Hr, Hr'. apply Qred_complete. now rewrite Hv, Hv'.
Qed.

Lemma exact_hours_nonneg (n : Z) : 0 <= n -> (0 <= exact_hours n)%Q.
Proof.
  intros Hn. unfold exact_hours. apply Qle_shift_div_l; [reflexivity|].
  rewrite Qmult_0_l. change 0%Q with (inject_Z 0). rewrite <- Zle_Qle. lia.
Qed.

(** Below 2^49 records, six times the decimal that [round] picks is
    within 3 of 23 n. *)
Lemma hours_lost_decimal_bound (n : Z) :
  0 <= n < 2 ^ 49 ->
  -3 <= 6 * rne (round53 (exact_hours n) * 10) - n * 23 <= 3.
Proof.
  intros Hn. unfold exact_hours.
  set (q := (inject_Z (n * 23) / 60)%Q).
  assert (Hq : (q * 60 == inject_Z (n * 23))%Q) by (unfold q; field).
  assert (Hq0 : (0 <= q)%Q) by (apply exact_hours_nonneg; lia).
  assert (Hq1 : (q < 2 ^ 48)%Q).
  { apply Qlt_shift_div_r; [reflexivity|].
    change (2 ^ 48 * 60)%Q with (inject_Z (2 ^ 48 * 60)).
    rewrite <- Zlt_Qlt. lia. }
  pose proof (round53_error_below q 48 Hq0 Hq1) as He.
  change (2 ^ (48 - 53) * (1 # 2))%Q with (1 # 64)%Q in He.
  apply Qabs_Qle_condition in He. destruct He as [He1 He2].
  set (x := round53 q) in *.
  pose proof (rne_bounds (x * 10)) as [Hd1 Hd2].
  set (d := rne (x * 10)) in *.
  assert (H1 : (inject_Z (-4) < inject_Z (6 * d - n * 23))%Q).
  { unfold Z.sub at 1. rewrite inject_Z_plus, inject_Z_opp, inject_Z_mult.
    change (inject_Z (-4)) with (-4)%Q. change (inject_Z 6) with 6%Q. lra. }
  assert (H2 : (inject_Z (6 * d - n * 23) < inject_Z 4)%Q).
  { unfold Z.sub at 1. rewrite inject_Z_plus, inject_Z_opp, inject_Z_mult.
    change (inject_Z 4) with 4%Q. change (inject_Z 6) with 6%Q. lra. }
  rewrite <- Zlt_Qlt in H1, H2. lia.
Qed.

(** When 23 n / 6 is not half-way between two integers, [round] picks
    the decimal nearest to the exact quotient. *)
Lemma hours_lost_decimal_exact (n : Z) :
  0 <= n < 2 ^ 49 -> n mod 6 <> 3 ->
  rounds_to_int (exact_hours n * 10) (rne (round53 (exact_hours n) * 10)).
Proof.
  intros Hn Hm. pose proof (hours_lost_decimal_bound n Hn) as Hb.
  set (d := rne (round53 (exact_hours n) * 10)) in *.
  assert (Hz : -2 <= 6 * d - n * 23 <= 2).
  { clearbody d. pose proof (Z.div_mod n 6 ltac:(lia)) as Hdm.
    pose proof (Z.mod_pos_bound n 6 ltac:(lia)) as Hmb.
    set (r := n mod 6) in *. set (k := n / 6) in *. clearbody r k.
    assert (Hr : r = 0 \/ r = 1 \/ r = 2 \/ r = 4 \/ r = 5) by lia.
    destruct Hr as [->|[->|[->|[->| ->]]]]; lia. }
  destruct Hz as [Hz1 Hz2]. rewrite Zle_Qle in Hz1, Hz2.
  unfold Z.sub in Hz1, Hz2 at 1.
  rewrite inject_Z_plus, inject_Z_opp, inject_Z_mult in Hz1, Hz2.
  change (inject_Z (-2)) with (-2)%Q in Hz1.
  change (inject_Z 2) with 2%Q in Hz2.
  change (inject_Z 6) with 6%Q in Hz1, Hz2.
  unfold exact_hours.
  set (q := (inject_Z (n * 23) / 60)%Q).
  assert (Hq : (q * 60 == inject_Z (n * 23))%Q) by (unfold q; field).
  assert (Habs : (Qabs (inject_Z d - q * 10) <= 1 # 3)%Q).
  { apply Qabs_Qle_condition. split; lra. }
  split.
  - apply Qle_trans with (1 # 3)%Q; [exact Habs|discriminate].
  - intros He. exfalso. rewrite He in Habs. apply Habs. reflexivity.
Qed.

Lemma clamp_between (lo hi x : Q) :
  (lo <= hi)%Q -> (lo <= clamp lo hi x <= hi)%Q.
Proof.
  intros H. unfold clamp.
  destruct (Qle_bool x lo) eqn:E1; [lra|].
  destruct (Qle_bool hi x) eqn:E2; [lra|].
  assert (H1 : ~ (x <= lo)%Q) by (rewrite <- Qle_bool_iff; congruence).
  assert (H2 : ~ (hi <= x)%Q) by (rewrite <- Qle_bool_iff; congruence).
  apply Qnot_le_lt in H1, H2. lra.
Qed.

Lemma focus_score_float_between (n : Z) :
  0 < n < 27 ->
  exists x,
    py_round1
      (py_max (PyInt 1)
         (py_min (PyInt 10)
            (py_sub (PyInt 10) (py_truediv (PyInt n) (PyInt 3)))))
    = PyFloat x.
Proof.
  intros Hn. rewrite <- (Z2Nat.id n) by lia.
  assert (Hk : (0 < Z.to_nat n < 27)%nat) by lia.
  revert Hk. generalize (Z.to_nat n) as k. intros k Hk.
  destruct k as [|k]; [lia|].
  do 26 (destruct k as [|k]; [vm_compute; eexists; reflexivity|]).
  lia.
Qed.

Lemma decimal1_rounds_to_double (d : Z) :
  0 <= d -> rounds_to_double (inject_Z d / 10) (decimal1 d).
Proof.
  intros Hd. apply round53_rounds_to_double.
  apply Qle_shift_div_l; [reflexivity|]. rewrite Qmult_0_l.
  change 0%Q with (inject_Z 0). now rewrite <- Zle_Qle.
Qed.

Lemma hours_lost_decimal_nonneg (n : Z) :
  0 <= n -> 0 <= rne (round53 (exact_hours n) * 10).
Proof.
  intros Hn. apply rne_ge_Z. change (inject_Z 0) with 0%Q.
  pose proof (round53_nonneg _ (exact_hours_nonneg n Hn)). lra.
Qed.

Lemma score_decimal_nonneg (n : Z) : 0 <= rne (exact_score n * 10).
Proof.
  apply rne_ge_Z. change (inject_Z 0) with 0%Q.
  assert (H : (1 <= exact_score n <= 10)%Q)
    by (apply clamp_between; discriminate).
  lra.
Qed.

(** C3 (as amended).  For every list of records, n its length:
    [total_interruptions] is n.  [hours_lost] is the float that Python's
    [round(n * 23 / 60, 1)] returns: the exact quotient is first rounded
    to the nearest double, that double is rounded to one decimal place
    (ties to even), and the decimal is rounded to the nearest double.
    Below 2^49 records the decimal is a nearest one-decimal value of the
    exact quotient, and it is the exact quotient rounded to one decimal
    place unless the exact quotient lies half-way between two decimals
    (n = 3, 9, 15, ...), where the double of the quotient decides.
    [focus_score] has the value of the exact 10 - n / 3 clamped to
    [1, 10], rounded to one decimal place and then to the nearest double;
    it lies in [1, 10]; it is the int 10 for no record, the int 1 from 27
    records on, and a float between.  From the empty list the report has
    total 0, hours lost 0.0, focus score the int 10 (equal to 10.0) and
    an empty per-type mapping. *)
Theorem report_figures_binary64 (l : list interruption) :
  let n := Z.of_nat (List.length l) in
  let rep := generate_daily_report l in
  total_interruptions rep = n
  /\ (exists q d v,
         rounds_to_double (exact_hours n) q
         /\ rounds_to_int (q * 10) d
         /\ rounds_to_double (inject_Z d / 10) v
         /\ hours_lost rep = PyFloat v
         /\ (n < 2 ^ 49 -> nearest_tenth d (exact_hours n))
         /\ (n < 2 ^ 49 -> n mod 6 <> 3 ->
             rounds_to_int (exact_hours n * 10) d))
  /\ (exists d,
         rounds_to_int (exact_score n * 10) d
         /\ rounds_to_double (inject_Z d / 10) (pyval (focus_score rep)))
  /\ (1 <= pyval (focus_score rep) <= 10)%Q
  /\ (n = 0 -> focus_score rep = PyInt 10)
  /\ (0 < n < 27 -> exists x, focus_score rep = PyFloat x)
  /\ (27 <= n -> focus_score rep = PyInt 1)
  /\ (l = [] ->
      total_interruptions rep = 0
      /\ hours_lost rep = PyFloat 0
      /\ focus_score rep = PyInt 10
      /\ py_eq (focus_score rep) (PyFloat 10) = true
      /\ interruptions_by_type rep = []).
Proof.
  cbv zeta. set (n := Z.of_nat (List.length l)).
  assert (Hn : 0 <= n) by (unfold n; lia).
  split; [reflexivity|]. split.
  { exists (round53 (exact_hours n)),
           (rne (round53 (exact_hours n) * 10)),
           (decimal1 (rne (round53 (exact_hours n) * 10))).
    split; [apply round53_rounds_to_double, exact_hours_nonneg, Hn|].
    split; [apply rne_rounds_to_int|].
    split; [apply decimal1_rounds_to_double, hours_lost_decimal_nonneg, Hn|].
    split; [apply hours_lost_expr|]. split.
    - intros Hb. apply hours_lost_nearest. lia.
    - intros Hb Hm. apply hours_lost_decimal_exact; [lia|exact Hm]. }
  destruct (focus_score_rounds_exact l) as (Hv & _ & Hr). fold n in Hv.
  split.
  { exists (rne (exact_score n * 10)).
    split; [apply rne_rounds_to_int|].
    rewrite Hv. apply decimal1_rounds_to_double, score_decimal_nonneg. }
  split; [exact Hr|].
  rewrite focus_score_expr. fold n.
  split; [intros ->; reflexivity|]. split; [apply focus_score_float_between|].
  split; [apply focus_score_floor|].
  intros ->. repeat split.
Qed.

Lemma report_figures_binary64_witness :
  Z.of_nat (List.length (repeat sample_record 4)) < 2 ^ 49
  /\ Z.of_nat (List.length (repeat sample_record 4)) mod 6 <> 3
  /\ 0 < Z.of_nat (List.length (repeat sample_record 4)) < 27
  /\ total_interruptions (generate_daily_report (repeat sample_record 4)) = 4
  /\ (exists q d v,
         rounds_to_double (exact_hours 4) q
         /\ rounds_to_int (q * 10) d
         /\ rounds_to_double (inject_Z d / 10) v
         /\ hours_lost (generate_daily_report (repeat sample_record 4))
            = PyFloat v
         /\ nearest_tenth d (exact_hours 4)
         /\ rounds_to_int (exact_hours 4 * 10) d)
  /\ (exists x,
         focus_score (generate_daily_report (repeat sample_record 4))
         = PyFloat x).
Proof.
  pose proof (report_figures_binary64 (repeat sample_record 4)) as H.
  cbv zeta in H.
  change (Z.of_nat (List.length (repeat sample_record 4))) with 4 in *.
  assert (Hb : 4 < 2 ^ 49) by reflexivity.
  assert (Hm : 4 mod 6 <> 3) by discriminate.
  assert (Hr : 0 < 4 < 27) by lia.
  destruct H as (Ht & (q & d & v & H1 & H2 & H3 & H4 & H5 & H6) & _ & _ & _
                 & Hf & _).
  split; [exact Hb|]. split; [exact Hm|]. split; [exact Hr|].
  split; [exact Ht|]. split; [|exact (Hf Hr)].
  exists q, d, v.
  split; [exact H1|]. split; [exact H2|]. split; [exact H3|].
  split; [exact H4|]. split; [exact (H5 Hb)|exact (H6 Hb Hm)].
Defined.

(** C3 as the specification words it fails where the exact quotient is
    half-way between two decimals.  With 3 records the exact quotient is
    1.15, which rounds to 1.2 (to the even neighbour as well as upwards),
    and the report shows 1.1; with 9 records 3.45 becomes 3.5 and with 15
    records 5.75 becomes 5.8, so no rule that always rounds a half down
    fits either. *)
Lemma hours_lost_differs_at_exact_ties :
  (exact_hours 3 == 23 # 20)%Q
  /\ rne (exact_hours 3 * 10) = 12
  /\ Qfloor (exact_hours 3 * 10 + (1 # 2)) = 12
  /\ hours_lost (generate_daily_report (repeat sample_record 3))
     = PyFloat (decimal1 11)
  /\ hours_lost (generate_daily_report (repeat sample_record 3))
     <> claimed_hours_lost 3
  /\ Qfloor (exact_hours 9 * 10) = 34
  /\ hours_lost (generate_daily_report (repeat sample_record 9))
     = PyFloat (decimal1 35)
  /\ Qfloor (exact_hours 15 * 10) = 57
  /\ hours_lost (generate_daily_report (repeat sample_record 15))
     = PyFloat (decimal1 58).
Proof. vm_compute. repeat split. discriminate. Qed.
